(** * FB2 to EPUB converter (converter.py): a shallow embedding and its properties

    The development follows converter.py function by function.  The XML tree
    that BeautifulSoup hands to the converter is a rose tree; the queries the
    converter uses on it ([find], [find_all], [find_parent], [get_text],
    [get]) are functions on that tree.  The ebooklib book object is a record
    threaded through the functions that mutate it.  Exceptions, logging and
    the calls that leave the program (file system, XML parser, base64, the
    EPUB writer) live in a small state-and-exception monad over an explicit
    environment of oracles. *)

From Stdlib Require Import List String Ascii ZArith Lia Bool Arith.
From Stdlib Require Import DecimalString Strings.Byte.
Import ListNotations.
Open Scope list_scope.
Open Scope string_scope.
Set Warnings "-register-all".

Set Implicit Arguments.

(* ================================================================== *)
(** ** Strings as Python uses them *)

Module Py.

(** The double quote character, for the HTML attributes the formatter emits. *)
Definition dq : string := String (ascii_of_nat 34) EmptyString.

(** [str(n)] for a non-negative integer. *)
Definition str_of_nat (n : nat) : string :=
  NilEmpty.string_of_uint (Nat.to_uint n).

(** [''.join(l)]. *)
Definition join (l : list string) : string := String.concat EmptyString l.

(** [' '.join(l)]. *)
Definition join_space (l : list string) : string := String.concat " " l.

(** [str.isspace] on one character, for code points below 256. *)
Definition isspace (c : ascii) : bool :=
  let n := nat_of_ascii c in
  (((9 <=? n) && (n <=? 13)) || ((28 <=? n) && (n <=? 32))
   || (n =? 133) || (n =? 160))%nat.

Fixpoint lstrip (s : string) : string :=
  match s with
  | EmptyString => EmptyString
  | String c s' => if isspace c then lstrip s' else s
  end.

(** Drops trailing white space: a character is kept when it is not white
    space or when something is kept after it. *)
Fixpoint rstrip (s : string) : string :=
  match s with
  | EmptyString => EmptyString
  | String c s' =>
      match rstrip s' with
      | EmptyString => if isspace c then EmptyString else String c EmptyString
      | r => String c r
      end
  end.

(** [s.strip()]. *)
Definition strip (s : string) : string := rstrip (lstrip s).

Definition is_empty (s : string) : bool :=
  match s with EmptyString => true | _ => false end.

(** [s.endswith(suffix)]. *)
Definition endswith (s suffix : string) : bool :=
  let n := String.length s in
  let k := String.length suffix in
  (k <=? n)%nat && String.eqb (substring (n - k) k s) suffix.

(** [s.rfind(c)] for a one-character needle: the index of the last
    occurrence, or -1. *)
Fixpoint rfind_from (c : ascii) (s : string) (i : Z) (last : Z) : Z :=
  match s with
  | EmptyString => last
  | String d s' => rfind_from c s' (i + 1)%Z (if Ascii.eqb c d then i else last)
  end.

Definition rfind (c : ascii) (s : string) : Z := rfind_from c s 0%Z (-1)%Z.

(** [s[:i]] and [s[i:]] for an index [0 <= i]. *)
Definition slice_to (s : string) (i : Z) : string := substring 0 (Z.to_nat i) s.
Definition slice_from (s : string) (i : Z) : string :=
  substring (Z.to_nat i) (String.length s - Z.to_nat i) s.

(** [os.path.basename] (posixpath): what follows the last slash. *)
Definition basename (p : string) : string := slice_from p (rfind "/"%char p + 1)%Z.

(** The loop of [genericpath._splitext] that skips the leading dots of the
    file name: is there a character other than a dot in [p[lo:hi]]? *)
Definition has_non_dot (p : string) (lo hi : Z) : bool :=
  existsb (fun c => negb (Ascii.eqb c "."%char))
          (list_ascii_of_string (substring (Z.to_nat lo) (Z.to_nat (hi - lo)) p)).

(** [os.path.splitext(p)[0]] (posixpath). *)
Definition splitext_root (p : string) : string :=
  let sepIndex := rfind "/"%char p in
  let dotIndex := rfind "."%char p in
  if (sepIndex <? dotIndex)%Z
  then if has_non_dot p (sepIndex + 1)%Z dotIndex then slice_to p dotIndex else p
  else p.

End Py.

(* ================================================================== *)
(** ** The parsed document (BeautifulSoup) *)

(** A node of the tree: a string, a tag with its attributes and contents, or
    one of the strings that [get_text] leaves out (a comment, a processing
    instruction, a declaration). *)
Inductive node : Type :=
| NavigableString (s : string)
| Comment (s : string)
| Tag (name : string) (attrs : list (string * string)) (contents : list node).

(** Induction that reaches the contents of a tag. *)
Fixpoint node_rect' (P : node -> Type) (Q : list node -> Type)
    (Hs : forall s, P (NavigableString s))
    (Hc : forall s, P (Comment s))
    (Ht : forall nm at' cs, Q cs -> P (Tag nm at' cs))
    (Hnil : Q [])
    (Hcons : forall c cs, P c -> Q cs -> Q (c :: cs))
    (n : node) : P n :=
  match n with
  | NavigableString s => Hs s
  | Comment s => Hc s
  | Tag nm at' cs =>
      Ht nm at' cs
         ((fix go (l : list node) : Q l :=
             match l with
             | [] => Hnil
             | c :: l' => Hcons c l' (node_rect' P Q Hs Hc Ht Hnil Hcons c) (go l')
             end) cs)
  end.

(** An element as the converter holds it: the node together with the names
    of its ancestors, nearest first.  BeautifulSoup keeps a parent pointer in
    every node; the ancestor names are all that the converter reads through
    it ([find_parent]). *)
Record element : Type := Element { parents : list string; here : node }.

Module Soup.

Definition name_of (n : node) : option string :=
  match n with Tag nm _ _ => Some nm | _ => None end.

Definition is_named (nm : string) (e : element) : bool :=
  match name_of (here e) with Some x => String.eqb x nm | None => false end.

Definition is_named_in (nms : list string) (e : element) : bool :=
  existsb (fun nm => is_named nm e) nms.

(** All descendants of a node in document order, each with its ancestors. *)
Fixpoint descendants_in (anc : list string) (n : node) : list element :=
  match n with
  | Tag nm _ cs =>
      flat_map (fun c => Element (nm :: anc) c :: descendants_in (nm :: anc) c) cs
  | _ => []
  end.

Definition descendants (e : element) : list element :=
  descendants_in (parents e) (here e).

(** The BeautifulSoup object itself: the root, with no ancestor. *)
Definition root (soup : node) : element := Element [] soup.

(** [e.find_all(names)]: the descendant tags with one of the names. *)
Definition find_all (nms : list string) (e : element) : list element :=
  filter (is_named_in nms) (descendants e).

(** [e.find(name)]: the first such descendant, or [None]. *)
Definition find (nm : string) (e : element) : option element :=
  hd_error (find_all [nm] e).

(** [dict.get(key, default)] on the attributes of a tag. *)
Fixpoint lookup (key : string) (l : list (string * string)) : option string :=
  match l with
  | [] => None
  | (k, v) :: l' => if String.eqb k key then Some v else lookup key l'
  end.

Definition attrs_of (n : node) : list (string * string) :=
  match n with Tag _ a _ => a | _ => [] end.

Definition get (e : element) (key default : string) : string :=
  match lookup key (attrs_of (here e)) with Some v => v | None => default end.

(** [e.find(name, {key: values})]: the first descendant with that name whose
    attribute [key] is one of [values]. *)
Definition has_attr_in (key : string) (values : list string) (e : element) : bool :=
  match lookup key (attrs_of (here e)) with
  | Some v => existsb (String.eqb v) values
  | None => false
  end.

Definition find_with_attr (nm key : string) (values : list string) (e : element)
  : option element :=
  hd_error (filter (fun d => is_named nm d && has_attr_in key values d) (descendants e)).

(** [e.find_parent(name)] is used for its truth value only. *)
Definition find_parent (nm : string) (e : element) : bool :=
  existsb (String.eqb nm) (parents e).

(** The strings below a node, in document order. *)
Fixpoint strings (n : node) : list string :=
  match n with
  | NavigableString s => [s]
  | Comment _ => []
  | Tag _ _ cs => flat_map strings cs
  end.

(** [e.get_text()], also [e.text]. *)
Definition get_text (e : element) : string := Py.join (strings (here e)).

(** [e.get_text(strip=True)]: every string stripped, the empty ones dropped. *)
Definition get_text_strip (e : element) : string :=
  Py.join (filter (fun s => negb (Py.is_empty s)) (map Py.strip (strings (here e)))).

End Soup.

(* ================================================================== *)
(** ** Content formatter: process_paragraph, process_section_elements *)

Definition process_paragraph (paragraph : element) : string :=
  let p_text := Soup.get_text paragraph in
  match Soup.find "emphasis" paragraph with
  | Some _ => "<i>" ++ p_text ++ "</i>"
  | None =>
      match Soup.find "a" paragraph with
      | Some _ => EmptyString
      | None => p_text
      end
  end.

Definition p_open : string := "<p style=" ++ Py.dq ++ "text-indent: 1em;" ++ Py.dq ++ ">".

(** The body of the loop of [process_section_elements]: what one element
    adds to [content]. *)
Definition section_element_html (element : element) : string :=
  if Soup.is_named "p" element && negb (Soup.find_parent "title" element) then
    let p_text := process_paragraph element in
    p_open ++ p_text ++ "</p>"
  else if Soup.is_named "a" element then
    let a_href := Soup.get element "l:href" "href" in
    let a_text := Soup.get_text element in
    "<a href=" ++ Py.dq ++ a_href ++ Py.dq ++ ">" ++ a_text ++ "</a>"
  else if Soup.is_named "subtitle" element then
    p_open ++ "<subtitle>" ++ Soup.get_text element ++ "</subtitle></p>"
  else EmptyString.

Definition process_section_elements (section : element) : string :=
  fold_left (fun content element => content ++ section_element_html element)
            (Soup.find_all ["p"; "a"; "subtitle"] section)
            EmptyString.

(* ================================================================== *)
(** ** The book under construction (ebooklib) *)

(** [epub.EpubHtml]: one XHTML document of the package. *)
Record EpubHtml : Type := mkEpubHtml {
  title : string;
  file_name : string;
  content : string;
  lang : string
}.

(** [epub.Link(href, title, uid)]: one entry of the table of contents. *)
Record Link : Type := mkLink { href : string; link_title : string; uid : string }.

(** What [book.add_item] receives in this program. *)
Inductive EpubItem : Type :=
| EpubCover (cover_file_name : string) (cover_content : list byte)
| EpubCoverHtml (image_name : string)
| Html (h : EpubHtml)
| EpubNcx
| EpubNav.

(** An entry of [book.spine]: the string ['nav'] or a document. *)
Inductive spine_entry : Type :=
| SpineNav
| SpineItem (h : EpubHtml).

Record EpubBook : Type := mkEpubBook {
  identifier : string;
  book_title : string;
  language : string;
  authors : list string;
  items : list EpubItem;
  spine : list spine_entry;
  toc : list Link
}.

Module Epub.

(** [epub.EpubBook()]. *)
Definition new_book : EpubBook :=
  mkEpubBook EmptyString EmptyString "en" [] [] [] [].

Definition set_identifier (b : EpubBook) (u : string) : EpubBook :=
  mkEpubBook u (book_title b) (language b) (authors b) (items b) (spine b) (toc b).

Definition set_title (b : EpubBook) (t : string) : EpubBook :=
  mkEpubBook (identifier b) t (language b) (authors b) (items b) (spine b) (toc b).

Definition set_language (b : EpubBook) (l : string) : EpubBook :=
  mkEpubBook (identifier b) (book_title b) l (authors b) (items b) (spine b) (toc b).

Definition add_author (b : EpubBook) (a : string) : EpubBook :=
  mkEpubBook (identifier b) (book_title b) (language b) (authors b ++ [a])%list
             (items b) (spine b) (toc b).

Definition add_item (b : EpubBook) (i : EpubItem) : EpubBook :=
  mkEpubBook (identifier b) (book_title b) (language b) (authors b)
             (items b ++ [i])%list (spine b) (toc b).

(** [book.spine = s]. *)
Definition set_spine (b : EpubBook) (s : list spine_entry) : EpubBook :=
  mkEpubBook (identifier b) (book_title b) (language b) (authors b) (items b) s (toc b).

(** [book.spine.insert(0, x)]. *)
Definition spine_insert0 (b : EpubBook) (x : spine_entry) : EpubBook :=
  set_spine b (x :: spine b).

Definition set_toc (b : EpubBook) (t : list Link) : EpubBook :=
  mkEpubBook (identifier b) (book_title b) (language b) (authors b) (items b) (spine b) t.

(** [book.toc.append(l)] and [book.toc.insert(0, l)]. *)
Definition toc_append (b : EpubBook) (l : Link) : EpubBook := set_toc b (toc b ++ [l])%list.
Definition toc_insert0 (b : EpubBook) (l : Link) : EpubBook := set_toc b (l :: toc b).

(** [book.set_cover(file_name, content, create_page=True)]: the image and
    the page that shows it. *)
Definition set_cover (b : EpubBook) (fn : string) (data : list byte) : EpubBook :=
  add_item (add_item b (EpubCover fn data)) (EpubCoverHtml fn).

End Epub.

(* ================================================================== *)
(** ** Metadata extractor: extract_metadata *)

Definition name_tags : list string := ["first-name"; "middle-name"; "last-name"].

(** [' '.join(author.find(tag).text for tag in name_tags if author.find(tag))]. *)
Definition author_name (author : element) : string :=
  Py.join_space
    (flat_map (fun tag => match Soup.find tag author with
                          | Some t => [Soup.get_text t]
                          | None => []
                          end) name_tags).

Definition extract_metadata (soup : node)
  : string * list string * option element :=
  let title_info := Soup.find "title-info" (Soup.root soup) in
  let title := "Unknown Title" in
  let language := "en" in
  let authors := @nil string in
  let annotation := @None element in
  match title_info with
  | Some title_info =>
      let title_tag := Soup.find "book-title" title_info in
      let title := match title_tag with Some t => Soup.get_text t | None => title end in
      let lang_tag := Soup.find "lang" title_info in
      let language := match lang_tag with Some t => Soup.get_text t | None => language end in
      let author_tags := Soup.find_all ["author"] title_info in
      let authors := map author_name author_tags in
      let annotation_tag := Soup.find "annotation" title_info in
      let annotation := match annotation_tag with Some a => Some a | None => annotation end in
      (title, authors, annotation)
  | None => (title, authors, annotation)
  end.

(* ================================================================== *)
(** ** Annotation chapter: add_annotation_to_book *)

(** Returns the chapter it added ([None] when the function falls off its end)
    and the book after the call. *)
Definition add_annotation_to_book (book : EpubBook) (annotation_content : option element)
  : option EpubHtml * EpubBook :=
  match annotation_content with
  | Some annotation_content =>
      let processed_annotation := process_section_elements annotation_content in
      let annotation_content_with_title := "<h1>Annotation</h1>" ++ processed_annotation in
      let annotation_chapter :=
        mkEpubHtml "Annotation" "annotation.xhtml" annotation_content_with_title "en" in
      let book := Epub.add_item book (Html annotation_chapter) in
      let book := Epub.spine_insert0 book (SpineItem annotation_chapter) in
      (Some annotation_chapter, book)
  | None => (None, book)
  end.

(* ================================================================== *)
(** ** Chapter assembler: create_epub_chapters *)

(** The variables the two nested loops of [create_epub_chapters] update. *)
Record chapters_state : Type := mkChapters {
  st_toc : list Link;
  st_spine : list spine_entry;
  st_chapter_count : nat;
  st_book : EpubBook
}.

Definition section_title_of (chapter_count : nat) (section : element) : string :=
  match Soup.find "title" section with
  | Some t => Soup.get_text_strip t
  | None => "Chapter " ++ Py.str_of_nat chapter_count
  end.

Definition chapter_file_name_of (chapter_count : nat) : string :=
  "chapter_" ++ Py.str_of_nat chapter_count ++ ".xhtml".

(** The chapter built for [section] when the counter has reached [chapter_count]. *)
Definition epub_chapter_of (chapter_count : nat) (section : element) : EpubHtml :=
  let section_title := section_title_of chapter_count section in
  let content := process_section_elements section in
  mkEpubHtml section_title (chapter_file_name_of chapter_count)
             ("<h1>" ++ section_title ++ "</h1>" ++ content) "en".

Definition chapter_link_of (chapter_count : nat) (section : element) : Link :=
  mkLink (chapter_file_name_of chapter_count)
         (section_title_of chapter_count section)
         ("chapter_" ++ Py.str_of_nat chapter_count).

(** The body of the inner loop. *)
Definition chapter_step (st : chapters_state) (section : element) : chapters_state :=
  let chapter_count := S (st_chapter_count st) in
  let epub_chapter := epub_chapter_of chapter_count section in
  mkChapters (st_toc st ++ [chapter_link_of chapter_count section])%list
             (st_spine st ++ [SpineItem epub_chapter])%list
             chapter_count
             (Epub.add_item (st_book st) (Html epub_chapter)).

Definition chapters_loop (soup : node) (st : chapters_state) : chapters_state :=
  fold_left (fun st body => fold_left chapter_step (Soup.find_all ["section"] body) st)
            (Soup.find_all ["body"] (Soup.root soup)) st.

Definition create_epub_chapters (soup : node) (epub_book : EpubBook)
  : list Link * EpubBook :=
  let st := chapters_loop soup (mkChapters [] [SpineNav] 0 epub_book) in
  (st_toc st, Epub.set_spine (st_book st) (st_spine st)).

(* ================================================================== *)
(** ** Exceptions, logging and the world outside the converter *)

(** The exceptions this program raises or meets; all of them are subclasses of
    [Exception].  [OSError] stands for an [OSError] other than
    [FileNotFoundError] (no permission, no space left, a directory in the
    way); [LibraryError] stands for whatever else a library raises (zipfile,
    the XML parser, binascii, lxml inside ebooklib), none of it an
    [OSError]. *)
Inductive exn : Type :=
| FileNotFoundError (msg : string)
| OSError (msg : string)
| ValueError (msg : string)
| UnboundLocalError (msg : string)
| LibraryError (msg : string).

(** [str(e)]. *)
Definition str_exn (e : exn) : string :=
  match e with
  | FileNotFoundError m | OSError m | ValueError m | UnboundLocalError m
  | LibraryError m => m
  end.

(** [isinstance(e, IOError)]: [IOError] is [OSError], and
    [FileNotFoundError] is one of its subclasses. *)
Definition is_os_error (e : exn) : bool :=
  match e with
  | FileNotFoundError _ | OSError _ => true
  | _ => false
  end.

Inductive log_level : Type := INFO | WARNING | ERROR.

(** What a run leaves behind, oldest first: log records, and the packages
    that the writer finished.  [Wrote path book] says that the package of
    [book] stands complete at [path].  A write that was not finished leaves
    no record here: the file may then be missing or incomplete. *)
Inductive event : Type :=
| Logged (level : log_level) (msg : string)
| Wrote (path : string) (book : EpubBook).

Definition trace : Type := list event.

(** A ZIP archive: its entries in listing order, each with what reading it gives. *)
Definition archive : Type := list (string * (exn + list byte)).

(** The collaborators of the converter.  Those that depend on the state of the
    machine take the history of the run so far.  [write_epub] is the writer
    that [epub.write_epub] runs, [EpubWriter(path, book, {}).write()]: it
    finishes the package and returns, or it raises.  What [epub.write_epub]
    makes of that is [do_write_epub]. *)
Record Env : Type := mkEnv {
  os_path_exists : trace -> string -> bool;
  open_read : trace -> string -> exn + list byte;
  ZipFile : trace -> string -> exn + archive;
  BeautifulSoup : list byte -> exn + node;
  b64decode : string -> exn + list byte;
  uuid4 : trace -> string;
  write_epub : trace -> string -> EpubBook -> exn + unit
}.

(** A computation of a function whose local variables are [L]: it reads and
    updates the locals and the trace, and returns or raises.  What it did to
    the locals and the trace before raising stays done. *)
Definition M (L A : Type) : Type := L -> trace -> (exn + A) * L * trace.

Module Run.

Definition ret {L A} (a : A) : M L A := fun l t => (inr a, l, t).

Definition bind {L A B} (m : M L A) (k : A -> M L B) : M L B :=
  fun l t =>
    match m l t with
    | (inl e, l', t') => (inl e, l', t')
    | (inr a, l', t') => k a l' t'
    end.

Definition raise {L A} (e : exn) : M L A := fun l t => (inl e, l, t).

(** [try: m  except Exception as e: h e]. *)
Definition try_except {L A} (m : M L A) (h : exn -> M L A) : M L A :=
  fun l t =>
    match m l t with
    | (inl e, l', t') => h e l' t'
    | r => r
    end.

(** The result of a library call. *)
Definition lift {L A} (r : exn + A) : M L A :=
  match r with inl e => raise e | inr a => ret a end.

(** A library call that looks at the machine. *)
Definition ask {L A} (f : trace -> A) : M L A := fun l t => (inr (f t), l, t).

Definition emit {L} (ev : event) : M L unit := fun l t => (inr tt, l, (t ++ [ev])%list).

Definition logging {L} (level : log_level) (msg : string) : M L unit :=
  emit (Logged level msg).

Definition get_locals {L} : M L L := fun l t => (inr l, l, t).
Definition set_locals {L} (l' : L) : M L unit := fun _ t => (inr tt, l', t).

(** A call: the callee runs on its own locals, which are gone when it is done. *)
Definition call {L L' A} (l0 : L') (m : M L' A) : M L A :=
  fun l t => let '(r, _, t') := m l0 t in (r, l, t').

(** [for x in xs: body x]. *)
Fixpoint for_each {L A} (xs : list A) (body : A -> M L unit) : M L unit :=
  match xs with
  | [] => ret tt
  | x :: xs' => bind (body x) (fun _ => for_each xs' body)
  end.

End Run.

Notation "x <- m ;; k" := (Run.bind m (fun x => k))
  (at level 61, m at next level, right associativity).
Notation "m ;; k" := (Run.bind m (fun _ => k))
  (at level 61, right associativity).

(* ================================================================== *)
(** ** Cover extractor: extract_cover_image *)

Definition extract_cover_image {L} (w : Env) (soup : node) (epub_book : EpubBook)
  : M L EpubBook :=
  Run.try_except
    (match Soup.find_with_attr "binary" "content-type" ["image/jpeg"; "image/jpg"]
                               (Soup.root soup) with
     | Some cover_image_tag =>
         let cover_data := Py.strip (Soup.get_text cover_image_tag) in
         cover_image_data <- Run.lift (b64decode w cover_data) ;;
         Run.ret (Epub.set_cover epub_book "cover.jpg" cover_image_data)
     | None => Run.ret epub_book
     end)
    (fun e =>
       Run.logging WARNING ("Failed to decode cover image: " ++ str_exn e) ;;
       Run.ret epub_book).

(* ================================================================== *)
(** ** EPUB packager: convert_fb2_to_epub *)

(** Lines 106 to 127 of the function: the book it holds when it calls
    [epub.write_epub]. *)
Definition convert_fb2_to_epub_book {L} (w : Env) (soup : node) : M L EpubBook :=
  let '(book_title, authors, annotation_content) := extract_metadata soup in
  let book := Epub.new_book in
  u <- Run.ask (uuid4 w) ;;
  let book := Epub.set_identifier book u in
  let book := Epub.set_title book book_title in
  let book := Epub.set_language book "en" in
  let book := fold_left Epub.add_author authors book in
  book <- extract_cover_image w soup book ;;
  let '(chapters_toc, book) := create_epub_chapters soup book in
  let book := fold_left Epub.toc_append chapters_toc book in
  let '(annotation_chapter, book) := add_annotation_to_book book annotation_content in
  let book :=
    match annotation_chapter with
    | Some annotation_chapter =>
        let book :=
          Epub.toc_insert0 book
            (mkLink (file_name annotation_chapter) (title annotation_chapter) "annotation") in
        Epub.spine_insert0 book (SpineItem annotation_chapter)
    | None => book
    end in
  let book := Epub.add_item book EpubNcx in
  let book := Epub.add_item book EpubNav in
  Run.ret book.

(** [epub.write_epub(output_path, book, {})]: ebooklib runs its writer inside
    [try: ... except IOError: pass].  When the writer finishes, the package
    is written.  When it raises an [OSError] (the folder of the path is
    missing, the disk is full), the call returns as if nothing had happened
    and no package is finished.  Any other exception of the writer reaches
    the caller. *)
Definition do_write_epub {L} (w : Env) (output_path : string) (book : EpubBook) : M L unit :=
  r <- Run.ask (fun t => write_epub w t output_path book) ;;
  match r with
  | inr _ => Run.emit (Wrote output_path book)
  | inl e => if is_os_error e then Run.ret tt else Run.raise e
  end.

Definition convert_fb2_to_epub {L} (w : Env) (fb2_content : list byte) (output_path : string)
  : M L unit :=
  soup <- Run.lift (BeautifulSoup w fb2_content) ;;
  book <- convert_fb2_to_epub_book w soup ;;
  do_write_epub w output_path book.

(* ================================================================== *)
(** ** Single file: convert_file *)

(** The [try] block.  The only local that outlives it is [output_path], which
    is unbound ([None]) until line 141 assigns it. *)
Definition convert_file_try (w : Env) (fb2_path : string) : M (option string) unit :=
  found <- Run.ask (fun t => os_path_exists w t fb2_path) ;;
  if negb found then Run.raise (FileNotFoundError "FB2 file does not exist")
  else
    r <- Run.ask (fun t => open_read w t fb2_path) ;;
    fb2_content <- Run.lift r ;;
    let base_name := Py.splitext_root (Py.basename fb2_path) in
    let output_path := base_name ++ ".epub" in
    Run.set_locals (Some output_path) ;;
    Run.call tt (convert_fb2_to_epub w fb2_content output_path) ;;
    Run.logging INFO ("Created EPUB book: " ++ output_path).

Definition unbound_output_path : exn :=
  UnboundLocalError
    "cannot access local variable 'output_path' where it is not associated with a value".

Definition convert_file {L} (w : Env) (fb2_path : string) : M L string :=
  Run.call None
    (Run.try_except (convert_file_try w fb2_path)
       (fun e => Run.logging ERROR ("Failed to convert FB2 to EPUB: " ++ str_exn e)) ;;
     output_path <- Run.get_locals ;;
     match output_path with
     | Some p => Run.ret p
     | None => Run.raise unbound_output_path
     end).

(* ================================================================== *)
(** ** Batch driver: convert_archive *)

Module Zip.

(** [zip_ref.namelist()]. *)
Definition namelist (z : archive) : list string := map fst z.

(** [zip_ref.read(name)]: the entry that the archive's name table holds for
    [name], which is the last one listed under it. *)
Fixpoint read (z : archive) (name : string) : option (exn + list byte) :=
  match z with
  | [] => None
  | (n, r) :: z' =>
      match read z' name with
      | Some r' => Some r'
      | None => if String.eqb n name then Some r else None
      end
  end.

End Zip.

Definition is_nil {A} (l : list A) : bool := match l with [] => true | _ => false end.

(** The body of the loop over the entries; the local is [epub_files]. *)
Definition convert_entry (w : Env) (zip_ref : archive) (fb2_file_name : string)
  : M (list string) unit :=
  fb2_content <-
    match Zip.read zip_ref fb2_file_name with
    | Some r => Run.lift r
    | None => Run.raise (LibraryError "There is no item with that name in the archive")
    end ;;
  let base_name := Py.splitext_root fb2_file_name in
  let output_path := base_name ++ ".epub" in
  Run.call tt (convert_fb2_to_epub w fb2_content output_path) ;;
  Run.logging INFO ("Created EPUB book: " ++ output_path) ;;
  epub_files <- Run.get_locals ;;
  Run.set_locals (epub_files ++ [output_path])%list.

(** The [try] block. *)
Definition convert_archive_try (w : Env) (zip_path : string) : M (list string) unit :=
  found <- Run.ask (fun t => os_path_exists w t zip_path) ;;
  if negb found then Run.raise (FileNotFoundError "ZIP file does not exist")
  else
    r <- Run.ask (fun t => ZipFile w t zip_path) ;;
    zip_ref <- Run.lift r ;;
    let fb2_files := filter (fun f => Py.endswith f ".fb2") (Zip.namelist zip_ref) in
    if is_nil fb2_files then Run.raise (ValueError "No FB2 files found in the ZIP archive")
    else Run.for_each fb2_files (convert_entry w zip_ref).

Definition convert_archive {L} (w : Env) (zip_path : string) : M L (list string) :=
  Run.call []
    (Run.try_except (convert_archive_try w zip_path)
       (fun e => Run.logging ERROR ("Failed to convert FB2 archive to EPUB: " ++ str_exn e)) ;;
     Run.get_locals).

(* ================================================================== *)
(** * Vocabulary of the properties *)

(** ** Example documents *)

Module Examples.

Definition text := NavigableString.

(** The example of the specification: title Test, author Ann Lee, one
    section titled Intro with the paragraph Hello. *)
Definition intro_hello : node :=
  Tag "[document]" []
    [Tag "FictionBook" []
       [Tag "description" []
          [Tag "title-info" []
             [Tag "author" [] [Tag "first-name" [] [text "Ann"];
                               Tag "last-name" [] [text "Lee"]];
              Tag "book-title" [] [text "Test"]]];
        Tag "body" []
          [Tag "section" []
             [Tag "title" [] [Tag "p" [] [text "Intro"]];
              Tag "p" [] [text "Hello"]]]]].

(** A paragraph outside any title. *)
Definition plain_paragraph : element :=
  Element ["section"; "body"; "FictionBook"; "[document]"] (Tag "p" [] [text "Hello"]).

(** A link that carries a plain [href] attribute and no [l:href]. *)
Definition plain_link : element :=
  Element ["p"; "section"; "body"; "FictionBook"; "[document]"]
          (Tag "a" [("href", "http://example.org/")] [text "site"]).

(** A book in Russian with an annotation and two bodies: the text, with a
    section that holds a sub-section, and the notes. *)
Definition two_bodies : node :=
  Tag "[document]" []
    [Comment "exported from the library";
     Tag "FictionBook" []
       [Tag "description" []
          [Tag "title-info" []
             [Tag "author" [] [Tag "first-name" [] [text "Lev"];
                               Tag "last-name" [] [text "Tolstoy"]];
              Tag "book-title" [] [text "Detstvo"];
              Tag "annotation" [] [Tag "p" [] [text "A childhood."]];
              Tag "lang" [] [text "ru"]]];
        Tag "body" []
          [Tag "section" []
             [Tag "title" [] [Tag "p" [] [text "Part one"]];
              Tag "section" [] [Tag "p" [] [text "The teacher"]]];
           Tag "section" [] [Tag "p" [] [text "Farewell"]]];
        Tag "body" [("name", "notes")]
          [Tag "section" [] [Tag "p" [] [text "A note"]]];
        Tag "binary" [("id", "cover.jpg"); ("content-type", "image/jpeg")]
          [text "/9j/4AAQ"]]].

(** A machine on which every file exists and is empty, every archive is
    empty, the parser returns [soup], the base64 decoder accepts no
    payload and the writer succeeds. *)
Definition quiet_env (soup : node) : Env :=
  mkEnv (fun _ _ => true) (fun _ _ => inr []) (fun _ _ => inr [])
        (fun _ => inr soup)
        (fun _ => inl (LibraryError "Incorrect padding"))
        (fun _ => "00000000-0000-4000-8000-000000000000")
        (fun _ _ _ => inr tt).

(** The same machine with a decoder that accepts every payload. *)
Definition decoding_env (soup : node) : Env :=
  mkEnv (fun _ _ => true) (fun _ _ => inr []) (fun _ _ => inr [])
        (fun _ => inr soup)
        (fun _ => inr [x00])
        (fun _ => "00000000-0000-4000-8000-000000000000")
        (fun _ _ _ => inr tt).

Definition text_body : element :=
  hd (Soup.root two_bodies) (Soup.find_all ["body"] (Soup.root two_bodies)).
Definition part_one : element := hd text_body (Soup.find_all ["section"] text_body).
Definition the_teacher : element := hd part_one (Soup.find_all ["section"] part_one).

(** A machine whose disk is full: the writer meets an [OSError]. *)
Definition full_disk_env : Env :=
  mkEnv (fun _ _ => true) (fun _ _ => inr []) (fun _ _ => inr [])
        (fun _ => inr intro_hello)
        (fun _ => inl (LibraryError "Incorrect padding"))
        (fun _ => "00000000-0000-4000-8000-000000000000")
        (fun _ _ _ => inl (OSError "[Errno 28] No space left on device")).

(** A machine without the lxml parser: [BeautifulSoup(content, 'lxml-xml')]
    raises [bs4.FeatureNotFound], a [ValueError]. *)
Definition no_parser_env : Env :=
  mkEnv (fun _ _ => true) (fun _ _ => inr []) (fun _ _ => inr [])
        (fun _ => inl (ValueError
           "Couldn't find a tree builder with the features you requested: lxml-xml. Do you need to install a parser library?"))
        (fun _ => inl (LibraryError "Incorrect padding"))
        (fun _ => "00000000-0000-4000-8000-000000000000")
        (fun _ _ _ => inr tt).

(** An archive with an entry in a folder between two entries at top level. *)
Definition folder_archive : archive :=
  [("intro.fb2", inr []); ("stories/first.fb2", inr []); ("readme.txt", inr []);
   ("second.fb2", inr [])].

(** A machine on which [books.zip] is that archive and the working
    directory has no folder [stories]: the writer meets a
    [FileNotFoundError] for a path in a folder and finishes otherwise. *)
Definition no_folder_env : Env :=
  mkEnv (fun _ p => String.eqb p "books.zip")
        (fun _ _ => inl (FileNotFoundError "[Errno 2] No such file or directory"))
        (fun _ p => if String.eqb p "books.zip" then inr folder_archive
                    else inl (LibraryError "File is not a zip file"))
        (fun _ => inr intro_hello)
        (fun _ => inl (LibraryError "Incorrect padding"))
        (fun _ => "00000000-0000-4000-8000-000000000000")
        (fun _ p _ => if (Py.rfind "/"%char p <? 0)%Z then inr tt
                      else inl (FileNotFoundError "[Errno 2] No such file or directory")).

(** An archive whose second entry is damaged: reading it raises
    [zipfile.BadZipFile]. *)
Definition damaged_archive : archive :=
  [("intro.fb2", inr []);
   ("broken.fb2", inl (LibraryError "Bad CRC-32 for file 'broken.fb2'"));
   ("readme.txt", inr []);
   ("second.fb2", inr [])].

(** A machine on which [books.zip] is that archive and the writer finishes. *)
Definition damaged_archive_env : Env :=
  mkEnv (fun _ p => String.eqb p "books.zip")
        (fun _ _ => inl (FileNotFoundError "[Errno 2] No such file or directory"))
        (fun _ p => if String.eqb p "books.zip" then inr damaged_archive
                    else inl (LibraryError "File is not a zip file"))
        (fun _ => inr intro_hello)
        (fun _ => inl (LibraryError "Incorrect padding"))
        (fun _ => "00000000-0000-4000-8000-000000000000")
        (fun _ _ _ => inr tt).

End Examples.

(** ** The packager in closed form *)

(** The sections the two loops of [create_epub_chapters] visit, in the order
    they visit them. *)
Definition visited_sections (soup : node) : list element :=
  flat_map (Soup.find_all ["section"]) (Soup.find_all ["body"] (Soup.root soup)).

(** A list with the ordinals the chapter counter takes, from [S c] on. *)
Definition numbered_from {A} (c : nat) (l : list A) : list (nat * A) :=
  combine (seq (S c) (List.length l)) l.

Definition chapters_from (c : nat) (secs : list element) : list EpubHtml :=
  map (fun p => epub_chapter_of (fst p) (snd p)) (numbered_from c secs).

Definition links_from (c : nat) (secs : list element) : list Link :=
  map (fun p => chapter_link_of (fst p) (snd p)) (numbered_from c secs).

(** The chapters and the links of a document. *)
Definition chapters_of (soup : node) : list EpubHtml := chapters_from 0 (visited_sections soup).
Definition links_of (soup : node) : list Link := links_from 0 (visited_sections soup).

(** The XHTML documents among the items of a book. *)
Definition html_items (l : list EpubItem) : list EpubHtml :=
  flat_map (fun i => match i with Html h => [h] | _ => [] end) l.

(** The annotation of a document, as [extract_metadata] returns it. *)
Definition annotation_of (soup : node) : option element := snd (extract_metadata soup).

Definition annotation_chapter_of (a : element) : EpubHtml :=
  mkEpubHtml "Annotation" "annotation.xhtml"
             ("<h1>Annotation</h1>" ++ process_section_elements a) "en".

(** The annotation chapter of a document: one chapter, or none. *)
Definition annotation_chapters (soup : node) : list EpubHtml :=
  match annotation_of soup with
  | Some a => [annotation_chapter_of a]
  | None => []
  end.

Definition annotation_link : Link := mkLink "annotation.xhtml" "Annotation" "annotation".

(** The first JPEG [binary] node of the document. *)
Definition cover_tag (soup : node) : option element :=
  Soup.find_with_attr "binary" "content-type" ["image/jpeg"; "image/jpg"] (Soup.root soup).

(** What decoding the payload of the cover node gives, when there is one. *)
Definition cover_decoded (w : Env) (soup : node) : option (exn + list byte) :=
  match cover_tag soup with
  | Some tag => Some (b64decode w (Py.strip (Soup.get_text tag)))
  | None => None
  end.

Definition cover_items (w : Env) (soup : node) : list EpubItem :=
  match cover_decoded w soup with
  | Some (inr data) => [EpubCover "cover.jpg" data; EpubCoverHtml "cover.jpg"]
  | _ => []
  end.

Definition cover_log (w : Env) (soup : node) : list event :=
  match cover_decoded w soup with
  | Some (inl e) => [Logged WARNING ("Failed to decode cover image: " ++ str_exn e)]
  | _ => []
  end.

(** The book that reaches the writer, for the identifier [u]. *)
Definition packaged (w : Env) (soup : node) (u : string) : EpubBook :=
  let ann := annotation_chapters soup in
  mkEpubBook u
    (fst (fst (extract_metadata soup)))
    "en"
    (snd (fst (extract_metadata soup)))
    (cover_items w soup ++ map Html (chapters_of soup) ++ map Html ann
       ++ [EpubNcx; EpubNav])%list
    (map SpineItem ann ++ map SpineItem ann
       ++ SpineNav :: map SpineItem (chapters_of soup))%list
    (map (fun _ => annotation_link) ann ++ links_of soup)%list.

(** Is the item the cover image or the page that shows it? *)
Definition is_cover_item (i : EpubItem) : bool :=
  match i with
  | EpubCover _ _ | EpubCoverHtml _ => true
  | _ => false
  end.

Definition has_cover (b : EpubBook) : bool := existsb is_cover_item (items b).

(** ** Nested sections *)

(** The reading of the specification: a section found below another section
    of a body gets no chapter of its own. *)
Definition nested_sections_make_no_chapter : Prop :=
  forall (w : Env) (soup : node) (t t' : trace) (book : EpubBook)
         (body outer nested : element) (i : nat),
    convert_fb2_to_epub_book w soup tt t = (inr book, tt, t') ->
    In body (Soup.find_all ["body"] (Soup.root soup)) ->
    In outer (Soup.find_all ["section"] body) ->
    In nested (Soup.find_all ["section"] outer) ->
    ~ In (Html (epub_chapter_of i nested)) (items book).

(** ** Well-formed documents *)

(** The root is the BeautifulSoup object. *)
Definition is_document (soup : node) : bool :=
  match soup with
  | Tag nm _ _ => String.eqb nm "[document]"
  | _ => false
  end.

(** What the structure of FB2 gives about bodies and sections: a section lies
    in a body, and a body does not lie in another body. *)
Definition well_placed (e : element) : bool :=
  if Soup.is_named "section" e then Soup.find_parent "body" e
  else if Soup.is_named "body" e then negb (Soup.find_parent "body" e)
  else true.

Definition valid_fb2 (soup : node) : bool :=
  is_document soup && forallb well_placed (Soup.descendants (Soup.root soup)).

(** Every section of the document, in document order. *)
Definition all_sections (soup : node) : list element :=
  Soup.find_all ["section"] (Soup.root soup).

(** The descendants of a list of sibling nodes under the ancestors [anc]. *)
Definition descendants_of_list (anc : list string) (cs : list node) : list element :=
  flat_map (fun c => Element anc c :: Soup.descendants_in anc c) cs.

(** ** The drivers *)

(** The output path of an archive entry. *)
Definition entry_output_path (fb2_file_name : string) : string :=
  Py.splitext_root fb2_file_name ++ ".epub".

(** The output path of a single file. *)
Definition file_output_path (fb2_path : string) : string :=
  Py.splitext_root (Py.basename fb2_path) ++ ".epub".

(** The entries of an archive that the batch driver converts. *)
Definition fb2_entries (z : archive) : list string :=
  filter (fun f => Py.endswith f ".fb2") (Zip.namelist z).

(** How the conversion of one entry ends when it starts after the history [t]. *)
Definition entry_outcome (w : Env) (z : archive) (name : string) (t : trace)
  : (exn + unit) * trace :=
  let '(r, _, t') := convert_entry w z name [] t in (r, t').

(** The entries [names] are converted one after the other without an
    exception; the result is the history after the last of them. *)
Fixpoint succeed_in_turn (w : Env) (z : archive) (names : list string) (t : trace)
  : option trace :=
  match names with
  | [] => Some t
  | n :: ns =>
      match entry_outcome w z n t with
      | (inr _, t') => succeed_in_turn w z ns t'
      | (inl _, _) => None
      end
  end.

(** The batch driver as the specification words it: an entry that fails is
    logged and skipped, and the entries after it are still converted. *)
Definition convert_archive_skipping {L} (w : Env) (zip_path : string) : M L (list string) :=
  Run.call []
    (Run.try_except
       (found <- Run.ask (fun t => os_path_exists w t zip_path) ;;
        if negb found then Run.raise (FileNotFoundError "ZIP file does not exist")
        else
          r <- Run.ask (fun t => ZipFile w t zip_path) ;;
          zip_ref <- Run.lift r ;;
          let fb2_files := fb2_entries zip_ref in
          if is_nil fb2_files
          then Run.raise (ValueError "No FB2 files found in the ZIP archive")
          else Run.for_each fb2_files
                 (fun name =>
                    Run.try_except (convert_entry w zip_ref name)
                      (fun e => Run.logging ERROR
                                  ("Failed to convert FB2 to EPUB: " ++ str_exn e))))
       (fun e => Run.logging ERROR ("Failed to convert FB2 archive to EPUB: " ++ str_exn e)) ;;
     Run.get_locals).

(** The reading of the specification for a single file: a missing input, an
    unparseable document and a failed write all reach the caller as an
    exception. *)
Definition convert_file_reports_failures : Prop :=
  forall (w : Env) (fb2_path : string) (t : trace),
    (os_path_exists w t fb2_path = false \/
     (exists (fb2_content : list byte) (e : exn),
         open_read w t fb2_path = inr fb2_content /\
         BeautifulSoup w fb2_content = inl e) \/
     (exists (fb2_content : list byte) (soup : node) (e : exn),
         open_read w t fb2_path = inr fb2_content /\
         BeautifulSoup w fb2_content = inr soup /\
         write_epub w (t ++ cover_log w soup)%list (file_output_path fb2_path)
                    (packaged w soup (uuid4 w t)) = inl e)) ->
    exists (e : exn) (t' : trace), convert_file w fb2_path tt t = (inl e, tt, t').

(** The reading of the specification for an archive: the driver returns what
    the skipping driver returns. *)
Definition archive_skips_failed_entries : Prop :=
  forall (w : Env) (zip_path : string) (t : trace),
    fst (fst (convert_archive w zip_path tt t)) =
    fst (fst (convert_archive_skipping w zip_path tt t)).

(** The record the handler of [convert_archive] logs. *)
Definition archive_error_log (e : exn) : event :=
  Logged ERROR ("Failed to convert FB2 archive to EPUB: " ++ str_exn e).

(* ================================================================== *)
(** * Further vocabulary *)

From Stdlib Require Import DecimalNat.

(** What [process_section_elements] emits for a link. *)
Definition link_html (a : element) : string :=
  "<a href=" ++ Py.dq ++ Soup.get a "l:href" "href" ++ Py.dq ++ ">"
    ++ Soup.get_text a ++ "</a>".

(** What [process_section_elements] emits for a subtitle. *)
Definition subtitle_html (s : element) : string :=
  p_open ++ "<subtitle>" ++ Soup.get_text s ++ "</subtitle></p>".

(** Every character of the string is white space. *)
Definition all_space (s : string) : bool := forallb Py.isspace (list_ascii_of_string s).

(** A tag whose every string is white space. *)
Definition blank (e : element) : bool := forallb all_space (Soup.strings (here e)).

Definition is_ncx (i : EpubItem) : bool := match i with EpubNcx => true | _ => false end.
Definition is_nav (i : EpubItem) : bool := match i with EpubNav => true | _ => false end.

(** The formatter renders nothing for the paragraph shown, and the link in
    it on its own. *)
Definition footnote_section : element :=
  Element ["body"; "FictionBook"; "[document]"]
    (Tag "section" []
       [Tag "p" [] [NavigableString "See ";
                    Tag "a" [("l:href", "#n1")] [NavigableString "note 1"]]]).

Definition footnote_paragraph : element :=
  Element ["section"; "body"; "FictionBook"; "[document]"]
    (Tag "p" [] [NavigableString "See ";
                 Tag "a" [("l:href", "#n1")] [NavigableString "note 1"]]).

Definition footnote_link : element :=
  Element ["p"; "section"; "body"; "FictionBook"; "[document]"]
    (Tag "a" [("l:href", "#n1")] [NavigableString "note 1"]).

(** A document with no [title-info], a PNG picture and a section whose title
    is blank. *)
Definition bare_document : node :=
  Tag "[document]" []
    [Tag "FictionBook" []
       [Tag "description" [] [Tag "document-info" [] []];
        Tag "body" []
          [Tag "section" [] [Tag "title" [] [Tag "p" [] [NavigableString "  "]];
                             Tag "p" [] [NavigableString "Text"]]];
        Tag "binary" [("id", "cover.png"); ("content-type", "image/png")]
          [NavigableString "iVBORw0KGgo="]]].

(** A document whose second author has no name part. *)
Definition anonymous_author_document : node :=
  Tag "[document]" []
    [Tag "FictionBook" []
       [Tag "description" []
          [Tag "title-info" []
             [Tag "author" [] [Tag "last-name" [] [NavigableString "Lee"];
                               Tag "first-name" [] [NavigableString "Ann"]];
              Tag "author" [] [Tag "nickname" [] [NavigableString "anon"]]]];
        Tag "body" [] []]].

(** The paths of the packages that the writer finished in a history, oldest
    first. *)
Definition written (t : trace) : list string :=
  flat_map (fun ev => match ev with Wrote p _ => [p] | Logged _ _ => [] end) t.

(** Does the character occur in the string? *)
Definition occurs (c : ascii) (s : string) : bool :=
  existsb (Ascii.eqb c) (list_ascii_of_string s).

(* ================================================================== *)
(** * The caller: process_file (bot.py) *)

(** [process_file(file_path, file_name)]: the name the user gave the upload
    chooses the driver, the path of the downloaded file is what is converted. *)
Definition process_file {L} (w : Env) (file_path file_name : string) : M L (list string) :=
  if Py.endswith file_name ".zip" then convert_archive w file_path
  else
    output_path <- convert_file w file_path ;;
    Run.ret [output_path].

(** Has the last component of the path a character other than a dot? *)
Definition has_stem_char (stem : string) : bool :=
  existsb (fun c => negb (Ascii.eqb c "."%char)) (list_ascii_of_string (Py.basename stem)).

(* ================================================================== *)
(** * Localized messages: get_localization (bot.py) *)

From Stdlib Require DecimalZ.

(** What [json.load] returns.  A number keeps its literal: the bot does no
    arithmetic on the values it reads here. *)
Inductive json : Type :=
| JNull
| JBool (b : bool)
| JNumber (literal : string)
| JString (s : string)
| JArray (l : list json)
| JObject (d : list (string * json)).

(** The exceptions of the dictionary operations. *)
Inductive bot_exn : Type := KeyError | AttributeError | TypeError.

(** A [dict] with string keys: its items in insertion order. *)
Definition dict : Type := list (string * json).

Fixpoint dict_get (d : dict) (key : string) : option json :=
  match d with
  | [] => None
  | (k, v) :: d' => if String.eqb k key then Some v else dict_get d' key
  end.


(** [str(chat_id)] for an integer. *)
Definition str_of_int (z : Z) : string := NilEmpty.string_of_int (Z.to_int z).

(** [obj.get(key, default)]: only a [dict] has the method. *)
Definition json_get (obj : json) (key : string) (default : json) : bot_exn + json :=
  match obj with
  | JObject d => inr (match dict_get d key with Some v => v | None => default end)
  | _ => inl AttributeError
  end.

(** [localizations[lang_code]]: the keys are strings; a list or a dict as key
    cannot be hashed, any other value is a key that is not there. *)
Definition localizations_item (localizations : dict) (lang_code : json) : bot_exn + json :=
  match lang_code with
  | JString s =>
      match dict_get localizations s with
      | Some table => inr table
      | None => inl KeyError
      end
  | JArray _ | JObject _ => inl TypeError
  | _ => inl KeyError
  end.

(** [get_localization(chat_id, key)], with the two global dictionaries it
    reads as arguments. *)
Definition get_localization (localizations : dict) (user_settings : json)
           (chat_id : Z) (key : string) : bot_exn + json :=
  match json_get user_settings (str_of_int chat_id) (JString "en") with
  | inl e => inl e
  | inr lang_code =>
      match localizations_item localizations lang_code with
      | inl e => inl e
      | inr table => json_get table key (JString EmptyString)
      end
  end.


(** Every stored preference names a language whose table is loaded. *)
Definition preferences_loaded (localizations : dict) (d : dict) : Prop :=
  forall (k : string) (v : json),
    dict_get d k = Some v ->
    exists (code : string) (table : dict),
      v = JString code /\ dict_get localizations code = Some (JObject table).

(** The text a table gives for a key. *)
Definition table_text (table : dict) (key : string) : json :=
  match dict_get table key with Some v => v | None => JString EmptyString end.

(** Two loaded languages and one stored preference. *)
Definition two_languages : dict :=
  [("en", JObject [("greeting", JString "Hello")]);
   ("ru", JObject [("greeting", JString "Privet")])].

Definition one_preference : dict := [("42", JString "ru")].

(** A paragraph of which one word is emphasised. *)
Definition emphasised_paragraph : element :=
  Element ["section"; "body"; "FictionBook"; "[document]"]
    (Tag "p" [] [NavigableString "It was ";
                 Tag "emphasis" [] [NavigableString "very"];
                 NavigableString " cold."]).

(* ================================================================== *)
(** * Properties *)

Unset Implicit Arguments.

(** ** Strings *)

Lemma append_nil_r (s : string) : s ++ EmptyString = s.
Proof. induction s as [|c s IH]; simpl; [reflexivity | now rewrite IH]. Qed.

Lemma append_assoc (a b c : string) : (a ++ b) ++ c = a ++ (b ++ c).
Proof. induction a as [|x a IH]; simpl; [reflexivity | now rewrite IH]. Qed.

Lemma join_cons (x : string) (l : list string) : Py.join (x :: l) = x ++ Py.join l.
Proof.
  unfold Py.join. destruct l as [|y l]; simpl.
  - now rewrite append_nil_r.
  - reflexivity.
Qed.

Lemma join_app (l1 l2 : list string) : Py.join (l1 ++ l2)%list = Py.join l1 ++ Py.join l2.
Proof.
  induction l1 as [|x l1 IH].
  - reflexivity.
  - rewrite <- app_comm_cons, !join_cons, IH. now rewrite append_assoc.
Qed.

(** ** The formatter's loop is a concatenation in document order *)

Lemma fold_left_append {A} (f : A -> string) (l : list A) (acc : string) :
  fold_left (fun content x => content ++ f x) l acc = acc ++ Py.join (map f l).
Proof.
  revert acc. induction l as [|x l IH]; intro acc; simpl.
  - now rewrite append_nil_r.
  - rewrite IH, join_cons. apply append_assoc.
Qed.

Lemma process_section_elements_join (section : element) :
  process_section_elements section =
  Py.join (map section_element_html (Soup.find_all ["p"; "a"; "subtitle"] section)).
Proof. unfold process_section_elements. now rewrite fold_left_append. Qed.

(** ** C7: paragraphs *)

(** C7.  A paragraph that has no [title] ancestor is rendered as the styled
    [<p>] wrapper around: its flattened text in [<i>...</i>] when it has an
    [emphasis] descendant; nothing when it has none but has an [a]
    descendant; its flattened text otherwise.  The content of a section is
    the concatenation of what its elements render, in document order.  For
    the example document the packager reaches the writer with a chapter
    [chapter_1.xhtml] whose content is [<h1>Intro</h1>] followed by the
    wrapped paragraph Hello. *)
Theorem C7_paragraph_rendering :
  (forall e : element,
      Soup.is_named "p" e = true ->
      Soup.find_parent "title" e = false ->
      exists inner : string,
        section_element_html e = p_open ++ inner ++ "</p>" /\
        (Soup.find "emphasis" e <> None ->
         inner = "<i>" ++ Soup.get_text e ++ "</i>") /\
        (Soup.find "emphasis" e = None -> Soup.find "a" e <> None ->
         inner = EmptyString) /\
        (Soup.find "emphasis" e = None -> Soup.find "a" e = None ->
         inner = Soup.get_text e)) /\
  (forall section : element,
      process_section_elements section =
      Py.join (map section_element_html (Soup.find_all ["p"; "a"; "subtitle"] section))) /\
  (forall (w : Env) (t : trace),
      exists book : EpubBook,
        convert_fb2_to_epub_book w Examples.intro_hello tt t = (inr book, tt, t) /\
        items book =
          [Html (mkEpubHtml "Intro" "chapter_1.xhtml"
                            ("<h1>Intro</h1>" ++ p_open ++ "Hello" ++ "</p>") "en");
           EpubNcx; EpubNav]).
Proof.
  split; [|split].
  - intros e Hp Ht. unfold section_element_html. rewrite Hp, Ht. simpl.
    unfold process_paragraph.
    destruct (Soup.find "emphasis" e) as [em|] eqn:Eem.
    + eexists; split; [reflexivity|]. repeat split; congruence.
    + destruct (Soup.find "a" e) as [a|] eqn:Ea.
      * eexists; split; [reflexivity|]. repeat split; congruence.
      * eexists; split; [reflexivity|]. repeat split; congruence.
  - apply process_section_elements_join.
  - intros w t. cbv. eexists. split; reflexivity.
Qed.

Lemma C7_paragraph_rendering_witness :
  Soup.is_named "p" Examples.plain_paragraph = true /\
  Soup.find_parent "title" Examples.plain_paragraph = false /\
  exists inner : string,
    section_element_html Examples.plain_paragraph = p_open ++ inner ++ "</p>" /\
    inner = "Hello".
Proof.
  split; [reflexivity|]. split; [reflexivity|].
  destruct (proj1 C7_paragraph_rendering Examples.plain_paragraph eq_refl eq_refl)
    as [inner [H1 [_ [_ H4]]]].
  exists inner. split; [exact H1|]. apply H4; reflexivity.
Defined.

(** ** C9: links *)

(** A link that has the [l:href] attribute is rendered with its value. *)
Lemma link_with_l_href (e : element) (v : string) :
  Soup.is_named "a" e = true ->
  Soup.lookup "l:href" (Soup.attrs_of (here e)) = Some v ->
  section_element_html e =
  "<a href=" ++ Py.dq ++ v ++ Py.dq ++ ">" ++ Soup.get_text e ++ "</a>".
Proof.
  intros Ha Hv. unfold section_element_html.
  assert (Hp : Soup.is_named "p" e = false).
  { unfold Soup.is_named in *. destruct (Soup.name_of (here e)) as [x|]; [|discriminate].
    apply String.eqb_eq in Ha. subst x. reflexivity. }
  rewrite Hp, Ha. simpl. unfold Soup.get. now rewrite Hv.
Qed.

(** C9.  What the code does for a link that has no [l:href] attribute: the
    second argument of [element.get] is the value returned, so the rendered
    target is the four letters href, whatever the link's own [href]
    attribute says. *)
Theorem C9_href_default_is_literal :
  forall (anc : list string) (target : string) (cs : list node),
    section_element_html (Element anc (Tag "a" [("href", target)] cs)) =
    "<a href=" ++ Py.dq ++ "href" ++ Py.dq ++ ">"
      ++ Soup.get_text (Element anc (Tag "a" [("href", target)] cs)) ++ "</a>".
Proof. intros anc target cs. reflexivity. Qed.

(** At the example link the rendered target differs from the attribute. *)
Lemma C9_plain_link_rendering :
  section_element_html Examples.plain_link =
    "<a href=" ++ Py.dq ++ "href" ++ Py.dq ++ ">site</a>" /\
  section_element_html Examples.plain_link <>
    "<a href=" ++ Py.dq ++ "http://example.org/" ++ Py.dq ++ ">site</a>".
Proof. split; [reflexivity | discriminate]. Qed.

(** ** The packager in closed form *)

Lemma fold_left_flat_map {A B S} (step : S -> B -> S) (f : A -> list B) (l : list A) (st : S) :
  fold_left (fun st x => fold_left step (f x) st) l st = fold_left step (flat_map f l) st.
Proof.
  revert st. induction l as [|x l IH]; intro st; simpl.
  - reflexivity.
  - now rewrite IH, fold_left_app.
Qed.

Lemma numbered_from_cons {A} (c : nat) (x : A) (l : list A) :
  numbered_from c (x :: l) = (S c, x) :: numbered_from (S c) l.
Proof. reflexivity. Qed.

Lemma chapter_steps (secs : list element) (st : chapters_state) :
  fold_left chapter_step secs st =
  mkChapters (st_toc st ++ links_from (st_chapter_count st) secs)%list
             (st_spine st ++ map SpineItem (chapters_from (st_chapter_count st) secs))%list
             (st_chapter_count st + List.length secs)
             (mkEpubBook (identifier (st_book st)) (book_title (st_book st))
                (language (st_book st)) (authors (st_book st))
                (items (st_book st)
                   ++ map Html (chapters_from (st_chapter_count st) secs))%list
                (spine (st_book st)) (toc (st_book st))).
Proof.
  revert st. induction secs as [|s secs IH]; intros [tc sp c b]; simpl.
  - unfold links_from, chapters_from, numbered_from. simpl.
    rewrite !app_nil_r, Nat.add_0_r. destruct b; reflexivity.
  - rewrite IH. unfold links_from, chapters_from.
    rewrite !numbered_from_cons. simpl.
    rewrite <- !app_assoc. simpl. f_equal. lia.
Qed.

Lemma create_epub_chapters_closed (soup : node) (b : EpubBook) :
  create_epub_chapters soup b =
  (links_of soup,
   mkEpubBook (identifier b) (book_title b) (language b) (authors b)
              (items b ++ map Html (chapters_of soup))%list
              (SpineNav :: map SpineItem (chapters_of soup))
              (toc b)).
Proof.
  unfold create_epub_chapters, chapters_loop.
  rewrite fold_left_flat_map, chapter_steps. reflexivity.
Qed.

Lemma fold_toc_append (ls : list Link) (b : EpubBook) :
  fold_left Epub.toc_append ls b = Epub.set_toc b (toc b ++ ls)%list.
Proof.
  revert b. induction ls as [|x ls IH]; intro b; simpl.
  - rewrite app_nil_r. destruct b; reflexivity.
  - rewrite IH. unfold Epub.toc_append, Epub.set_toc. simpl.
    now rewrite <- app_assoc.
Qed.

Lemma fold_add_author (l : list string) (b : EpubBook) :
  fold_left Epub.add_author l b =
  mkEpubBook (identifier b) (book_title b) (language b) (authors b ++ l)%list
             (items b) (spine b) (toc b).
Proof.
  revert b. induction l as [|x l IH]; intro b; simpl.
  - rewrite app_nil_r. destruct b; reflexivity.
  - rewrite IH. unfold Epub.add_author. simpl. now rewrite <- app_assoc.
Qed.

Lemma extract_cover_image_run {L} (w : Env) (soup : node) (b : EpubBook) (l : L) (t : trace) :
  extract_cover_image w soup b l t =
  (inr (mkEpubBook (identifier b) (book_title b) (language b) (authors b)
                   (items b ++ cover_items w soup)%list (spine b) (toc b)),
   l, (t ++ cover_log w soup)%list).
Proof.
  unfold extract_cover_image, cover_items, cover_log, cover_decoded, cover_tag.
  unfold Run.try_except, Run.bind, Run.lift, Run.ret, Run.raise, Run.logging, Run.emit.
  destruct (Soup.find_with_attr _ _ _ _) as [tag|].
  - destruct (b64decode w _) as [e|data]; simpl.
    + rewrite app_nil_r. destruct b; reflexivity.
    + rewrite app_nil_r. unfold Epub.set_cover, Epub.add_item. simpl.
      now rewrite <- app_assoc.
  - simpl. rewrite !app_nil_r. destruct b; reflexivity.
Qed.

Lemma convert_fb2_to_epub_book_run {L} (w : Env) (soup : node) (l : L) (t : trace) :
  convert_fb2_to_epub_book w soup l t =
  (inr (packaged w soup (uuid4 w t)), l, (t ++ cover_log w soup)%list).
Proof.
  unfold convert_fb2_to_epub_book, packaged, annotation_chapters, annotation_of.
  destruct (extract_metadata soup) as [[ttl auths] ann].
  unfold Run.bind, Run.ask. cbv beta iota zeta.
  rewrite extract_cover_image_run, create_epub_chapters_closed.
  rewrite fold_toc_append, fold_add_author. simpl.
  destruct ann as [a|]; simpl; unfold Run.ret; repeat f_equal.
  - unfold Epub.add_item, annotation_chapter_of. simpl.
    rewrite <- !app_assoc. reflexivity.
  - unfold Epub.add_item. simpl. rewrite <- !app_assoc. reflexivity.
Qed.


(** ** The tree: descendants, ancestors and document order *)

Lemma descendants_of_list_cons (anc : list string) (c : node) (cs : list node) :
  descendants_of_list anc (c :: cs) =
  (Element anc c :: Soup.descendants_in anc c ++ descendants_of_list anc cs)%list.
Proof. reflexivity. Qed.

Lemma find_parent_In (nm : string) (e : element) :
  Soup.find_parent nm e = true <-> In nm (parents e).
Proof.
  unfold Soup.find_parent. rewrite existsb_exists. split.
  - intros [x [Hx Heq]]. apply String.eqb_eq in Heq. now subst x.
  - intro H. exists nm. split; [exact H | apply String.eqb_refl].
Qed.

Lemma is_named_in_single (nm : string) (e : element) :
  Soup.is_named_in [nm] e = Soup.is_named nm e.
Proof. unfold Soup.is_named_in. simpl. apply orb_false_r. Qed.

(** The ancestors a walk starts with are ancestors of everything it reaches. *)
Lemma descendants_keep_ancestors (n : node) :
  forall (anc : list string) (e : element),
    In e (Soup.descendants_in anc n) -> forall x, In x anc -> In x (parents e).
Proof.
  induction n using node_rect' with
    (Q := fun cs => forall (anc : list string) (e : element),
              In e (descendants_of_list anc cs) -> forall x, In x anc -> In x (parents e)).
  - intros anc e [].
  - intros anc e [].
  - intros anc e He x Hx. apply (IHn (nm :: anc) e He). now right.
  - intros anc e [].
  - intros anc e He x Hx. rewrite descendants_of_list_cons in He.
    destruct He as [He | He].
    + subst e. exact Hx.
    + apply in_app_or in He. destruct He as [He | He].
      * eapply IHn; eassumption.
      * eapply IHn0; eassumption.
Qed.

(** An element is followed at once by its own descendants. *)
Lemma descendants_infix (n : node) :
  forall (anc : list string) (e : element),
    In e (Soup.descendants_in anc n) ->
    exists pre post : list element,
      Soup.descendants_in anc n = (pre ++ e :: Soup.descendants e ++ post)%list.
Proof.
  induction n using node_rect' with
    (Q := fun cs => forall (anc : list string) (e : element),
              In e (descendants_of_list anc cs) ->
              exists pre post : list element,
                descendants_of_list anc cs = (pre ++ e :: Soup.descendants e ++ post)%list).
  - intros anc e [].
  - intros anc e [].
  - intros anc e He. exact (IHn (nm :: anc) e He).
  - intros anc e [].
  - intros anc e He. rewrite descendants_of_list_cons in *.
    destruct He as [He | He].
    + subst e. exists [], (descendants_of_list anc cs). reflexivity.
    + apply in_app_or in He. destruct He as [He | He].
      * destruct (IHn anc e He) as [pre [post Heq]].
        exists (Element anc n :: pre), (post ++ descendants_of_list anc cs)%list.
        rewrite Heq. simpl. rewrite <- !app_assoc. simpl.
        now rewrite <- app_assoc.
      * destruct (IHn0 anc e He) as [pre [post Heq]].
        exists (Element anc n :: Soup.descendants_in anc n ++ pre)%list, post.
        rewrite Heq. simpl. now rewrite <- app_assoc.
Qed.

Lemma descendants_trans (a b c : element) :
  In b (Soup.descendants a) -> In c (Soup.descendants b) -> In c (Soup.descendants a).
Proof.
  intros Hb Hc. destruct (descendants_infix _ _ _ Hb) as [pre [post Heq]].
  unfold Soup.descendants at 1. rewrite Heq.
  apply in_or_app. right. right. apply in_or_app. now left.
Qed.

Lemma find_all_trans (nms1 nms2 : list string) (a b c : element) :
  In b (Soup.find_all nms1 a) -> In c (Soup.find_all nms2 b) -> In c (Soup.find_all nms2 a).
Proof.
  unfold Soup.find_all. rewrite !filter_In. intros [Hb _] [Hc Hn].
  split; [eapply descendants_trans; eassumption | exact Hn].
Qed.

Lemma descendants_have_parent (anc : list string) (nm : string)
      (at' : list (string * string)) (cs : list node) (e : element) :
  In e (Soup.descendants_in anc (Tag nm at' cs)) -> In nm (parents e).
Proof.
  simpl. rewrite in_flat_map. intros [c [_ [He | He]]].
  - subst e. now left.
  - eapply descendants_keep_ancestors; [exact He | now left].
Qed.

Lemma filter_none {A} (f : A -> bool) (l : list A) :
  (forall x, In x l -> f x = false) -> filter f l = [].
Proof.
  induction l as [|x l IH]; intro H; simpl.
  - reflexivity.
  - rewrite (H x (or_introl eq_refl)). apply IH. intros y Hy. apply H. now right.
Qed.

Lemma filter_head {A} (f : A -> bool) (x : A) (l : list A) :
  filter f (x :: l) = if f x then x :: filter f l else filter f l.
Proof. reflexivity. Qed.

Lemma is_named_tag (x : string) (anc : list string) (nm : string)
      (at' : list (string * string)) (cs : list node) :
  Soup.is_named x (Element anc (Tag nm at' cs)) = String.eqb nm x.
Proof. reflexivity. Qed.

Lemma is_named_unique (a b : string) (e : element) :
  Soup.is_named a e = true -> a <> b -> Soup.is_named b e = false.
Proof.
  unfold Soup.is_named. destruct (Soup.name_of (here e)) as [x|]; [|discriminate].
  intros Ha Hab. apply String.eqb_eq in Ha. subst x. now apply String.eqb_neq.
Qed.

(** No body below a body: elements that all lie under a body and are well
    placed are not bodies. *)
Lemma no_body_below_body (l : list element) :
  (forall e, In e l -> In "body" (parents e)) ->
  forallb well_placed l = true ->
  filter (Soup.is_named_in ["body"]) l = [].
Proof.
  intros Hanc Hok. rewrite forallb_forall in Hok.
  apply filter_none. intros e He. rewrite is_named_in_single.
  destruct (Soup.is_named "body" e) eqn:Eb; [|reflexivity].
  specialize (Hok e He). unfold well_placed in Hok.
  rewrite (is_named_unique "body" "section" e Eb) in Hok by discriminate.
  rewrite Eb in Hok.
  pose proof (proj2 (find_parent_In "body" e) (Hanc e He)) as Hfp.
  rewrite Hfp in Hok. discriminate.
Qed.

(** In a well-formed document the sections found body by body are the
    sections of the document, in document order. *)
Lemma sections_body_by_body (n : node) :
  forall anc : list string,
    ~ In "body" anc ->
    Soup.name_of n <> Some "body" ->
    forallb well_placed (Soup.descendants_in anc n) = true ->
    flat_map (Soup.find_all ["section"])
             (filter (Soup.is_named_in ["body"]) (Soup.descendants_in anc n)) =
    filter (Soup.is_named_in ["section"]) (Soup.descendants_in anc n).
Proof.
  induction n using node_rect' with
    (Q := fun cs => forall anc : list string,
              ~ In "body" anc ->
              forallb well_placed (descendants_of_list anc cs) = true ->
              flat_map (Soup.find_all ["section"])
                       (filter (Soup.is_named_in ["body"]) (descendants_of_list anc cs)) =
              filter (Soup.is_named_in ["section"]) (descendants_of_list anc cs)).
  - reflexivity.
  - reflexivity.
  - intros anc Hanc Hnm Hok. apply IHn; [|exact Hok].
    intros [Heq | Hin]; [|contradiction]. apply Hnm. simpl. now rewrite Heq.
  - reflexivity.
  - intros anc Hanc Hok. rewrite descendants_of_list_cons in *.
    simpl forallb in Hok. rewrite forallb_app in Hok.
    apply andb_prop in Hok. destruct Hok as [Hwp Hok].
    apply andb_prop in Hok. destruct Hok as [Hok1 Hok2].
    specialize (IHn0 anc Hanc Hok2).
    destruct n as [s | s | nm at' cs'].
    + simpl. exact IHn0.
    + simpl. exact IHn0.
    + rewrite !filter_head, !filter_app, !is_named_in_single.
      rewrite !is_named_tag.
      destruct (String.eqb_spec nm "body") as [Hb | Hb].
      * subst nm. simpl String.eqb. cbv iota.
        rewrite (no_body_below_body (Soup.descendants_in anc (Tag "body" at' cs'))).
        -- simpl app. simpl flat_map. rewrite IHn0. reflexivity.
        -- intros e He. eapply descendants_have_parent. exact He.
        -- exact Hok1.
      * destruct (String.eqb_spec nm "section") as [Hs | Hs].
        -- subst nm. exfalso. apply Hanc.
           apply (find_parent_In "body" (Element anc (Tag "section" at' cs'))).
           exact Hwp.
        -- rewrite flat_map_app, IHn0. f_equal.
           apply IHn; [exact Hanc | | exact Hok1].
           simpl. intro H. injection H as H. contradiction.
Qed.

Lemma visited_sections_all (soup : node) :
  valid_fb2 soup = true -> visited_sections soup = all_sections soup.
Proof.
  unfold valid_fb2, visited_sections, all_sections. intro H.
  apply andb_prop in H. destruct H as [Hdoc Hok].
  unfold Soup.find_all at 2 3. unfold Soup.descendants, Soup.root in *. simpl in *.
  apply sections_body_by_body.
  - intros [].
  - destruct soup as [s | s | nm at' cs]; [discriminate | discriminate |]. simpl in *.
    apply String.eqb_eq in Hdoc. subst nm. discriminate.
  - exact Hok.
Qed.

(** ** C1: one chapter per section, numbered in document order *)

Lemma map_fst_numbered {A} (l : list A) (c : nat) :
  map fst (numbered_from c l) = seq (S c) (List.length l).
Proof.
  revert c. induction l as [|x l IH]; intro c.
  - reflexivity.
  - rewrite numbered_from_cons. simpl. f_equal. apply IH.
Qed.

Lemma chapters_from_length (secs : list element) (c : nat) :
  List.length (chapters_from c secs) = List.length secs.
Proof.
  unfold chapters_from. rewrite length_map.
  rewrite <- (length_map fst (numbered_from c secs)), map_fst_numbered.
  apply length_seq.
Qed.

Lemma links_from_length (secs : list element) (c : nat) :
  List.length (links_from c secs) = List.length secs.
Proof.
  unfold links_from. rewrite length_map.
  rewrite <- (length_map fst (numbered_from c secs)), map_fst_numbered.
  apply length_seq.
Qed.

Lemma chapters_from_file_names (secs : list element) (c : nat) :
  map file_name (chapters_from c secs) =
  map chapter_file_name_of (seq (S c) (List.length secs)).
Proof.
  unfold chapters_from. rewrite map_map. simpl.
  rewrite <- (map_fst_numbered secs c), map_map. reflexivity.
Qed.

Lemma links_from_hrefs (secs : list element) (c : nat) :
  map href (links_from c secs) = map file_name (chapters_from c secs).
Proof. unfold links_from, chapters_from. rewrite !map_map. reflexivity. Qed.

Lemma chapters_from_nth (secs : list element) :
  forall (c i : nat) (s : element),
    nth_error secs i = Some s ->
    nth_error (chapters_from c secs) i = Some (epub_chapter_of (S (c + i)) s) /\
    nth_error (links_from c secs) i = Some (chapter_link_of (S (c + i)) s).
Proof.
  induction secs as [|x secs IH]; intros c i s H.
  - destruct i; discriminate.
  - unfold chapters_from, links_from. rewrite numbered_from_cons.
    destruct i as [|i]; simpl in *.
    + injection H as ->. rewrite Nat.add_0_r. split; reflexivity.
    + destruct (IH (S c) i s H) as [H1 H2].
      replace (c + S i) with (S c + i) by lia. split; assumption.
Qed.

Lemma html_items_app (l1 l2 : list EpubItem) :
  html_items (l1 ++ l2) = (html_items l1 ++ html_items l2)%list.
Proof. unfold html_items. apply flat_map_app. Qed.

Lemma html_items_Html (l : list EpubHtml) : html_items (map Html l) = l.
Proof.
  induction l as [|h l IH]; simpl; [reflexivity | now rewrite IH].
Qed.

Lemma html_items_cover (w : Env) (soup : node) : html_items (cover_items w soup) = [].
Proof.
  unfold cover_items. destruct (cover_decoded w soup) as [[e|d]|]; reflexivity.
Qed.

Lemma packaged_html_items (w : Env) (soup : node) (u : string) :
  html_items (items (packaged w soup u)) =
  (chapters_of soup ++ annotation_chapters soup)%list.
Proof.
  unfold packaged. simpl. rewrite !html_items_app, !html_items_Html, html_items_cover.
  simpl. now rewrite app_nil_r.
Qed.

(** C1.  For a well-formed document with N sections, the packager reaches
    the writer with exactly N chapters (beside the annotation chapter, when
    there is one); the chapter at position i (from 0) is built from the
    section at position i in document order with ordinal i+1, whatever body
    the section lies in; its file name is [chapter_{i+1}.xhtml]; the table of
    contents has the annotation link, when there is one, and then one link
    per chapter in the same order, N or N+1 entries in all. *)
Theorem C1_chapters_numbered_in_document_order :
  forall (w : Env) (soup : node) (t : trace),
    valid_fb2 soup = true ->
    exists (book : EpubBook) (t' : trace),
      convert_fb2_to_epub_book w soup tt t = (inr book, tt, t') /\
      let secs := all_sections soup in
      let N := List.length secs in
      let chapters := chapters_from 0 secs in
      let chapter_links := links_from 0 secs in
      html_items (items book) = (chapters ++ annotation_chapters soup)%list /\
      List.length chapters = N /\
      (forall (i : nat) (s : element),
          nth_error secs i = Some s ->
          nth_error chapters i = Some (epub_chapter_of (S i) s) /\
          nth_error chapter_links i = Some (chapter_link_of (S i) s)) /\
      map file_name chapters = map chapter_file_name_of (seq 1 N) /\
      toc book = (map (fun _ => annotation_link) (annotation_chapters soup)
                    ++ chapter_links)%list /\
      map href chapter_links = map file_name chapters /\
      List.length (toc book) =
        N + match annotation_of soup with Some _ => 1 | None => 0 end.
Proof.
  intros w soup t Hv.
  exists (packaged w soup (uuid4 w t)), (t ++ cover_log w soup)%list.
  split; [apply convert_fb2_to_epub_book_run|].
  cbv zeta. rewrite packaged_html_items.
  unfold chapters_of, links_of. rewrite (visited_sections_all soup Hv).
  repeat split.
  - apply chapters_from_length.
  - apply (chapters_from_nth (all_sections soup) 0 i s H).
  - apply (chapters_from_nth (all_sections soup) 0 i s H).
  - apply chapters_from_file_names.
  - unfold packaged, links_of. simpl. now rewrite (visited_sections_all soup Hv).
  - apply links_from_hrefs.
  - unfold packaged, links_of. simpl. rewrite (visited_sections_all soup Hv).
    rewrite length_app, length_map, links_from_length.
    unfold annotation_chapters. destruct (annotation_of soup); simpl; lia.
Qed.

Lemma C1_chapters_numbered_in_document_order_witness :
  valid_fb2 Examples.two_bodies = true /\
  exists (book : EpubBook) (t' : trace),
    convert_fb2_to_epub_book (Examples.quiet_env Examples.two_bodies)
                             Examples.two_bodies tt [] = (inr book, tt, t') /\
    map file_name (html_items (items book)) =
      ["chapter_1.xhtml"; "chapter_2.xhtml"; "chapter_3.xhtml"; "chapter_4.xhtml";
       "annotation.xhtml"] /\
    map href (toc book) =
      ["annotation.xhtml"; "chapter_1.xhtml"; "chapter_2.xhtml"; "chapter_3.xhtml";
       "chapter_4.xhtml"].
Proof.
  split; [reflexivity|].
  destruct (C1_chapters_numbered_in_document_order
              (Examples.quiet_env Examples.two_bodies) Examples.two_bodies [] eq_refl)
    as [book [t' [Hrun [Hitems [_ [_ [_ [Htoc _]]]]]]]].
  exists book, t'. split; [exact Hrun|]. rewrite Hitems, Htoc. split; reflexivity.
Defined.

(** ** The whole conversion *)

Lemma convert_fb2_to_epub_run {L} (w : Env) (fb2_content : list byte) (output_path : string)
      (l : L) (t : trace) :
  convert_fb2_to_epub w fb2_content output_path l t =
  match BeautifulSoup w fb2_content with
  | inl e => (inl e, l, t)
  | inr soup =>
      let t1 := (t ++ cover_log w soup)%list in
      let book := packaged w soup (uuid4 w t) in
      match write_epub w t1 output_path book with
      | inl e => if is_os_error e then (inr tt, l, t1) else (inl e, l, t1)
      | inr _ => (inr tt, l, (t1 ++ [Wrote output_path book])%list)
      end
  end.
Proof.
  unfold convert_fb2_to_epub. unfold Run.bind at 1.
  destruct (BeautifulSoup w fb2_content) as [e|soup]; [reflexivity|].
  unfold Run.lift at 1, Run.ret at 1. unfold Run.bind at 1.
  rewrite convert_fb2_to_epub_book_run. cbv zeta.
  unfold do_write_epub, Run.bind, Run.ask, Run.emit.
  destruct (write_epub w _ output_path _) as [e|[]]; [|reflexivity].
  destruct (is_os_error e); reflexivity.
Qed.

(** ** C2: the annotation in the spine *)

(** C2.  What the code does for a document with an annotation: the
    annotation chapter is inserted at the head of the spine by
    [add_annotation_to_book] and once more by [convert_fb2_to_epub], so the
    spine that reaches the writer lists it twice, at positions 0 and 1, ahead
    of the nav marker and the chapters in order; the annotation link is at
    position 0 of the table of contents. *)
Theorem C2_annotation_twice_in_spine :
  forall (w : Env) (soup : node) (t : trace) (a : element),
    annotation_of soup = Some a ->
    exists (book : EpubBook) (t' : trace),
      convert_fb2_to_epub_book w soup tt t = (inr book, tt, t') /\
      spine book =
        SpineItem (annotation_chapter_of a) :: SpineItem (annotation_chapter_of a)
          :: SpineNav :: map SpineItem (chapters_of soup) /\
      toc book = annotation_link :: links_of soup.
Proof.
  intros w soup t a Ha.
  exists (packaged w soup (uuid4 w t)), (t ++ cover_log w soup)%list.
  split; [apply convert_fb2_to_epub_book_run|].
  unfold packaged, annotation_chapters. rewrite Ha. split; reflexivity.
Qed.

Lemma C2_annotation_twice_in_spine_witness :
  exists (a : element) (book : EpubBook) (t' : trace),
    annotation_of Examples.two_bodies = Some a /\
    convert_fb2_to_epub_book (Examples.quiet_env Examples.two_bodies)
                             Examples.two_bodies tt [] = (inr book, tt, t') /\
    firstn 3 (spine book) =
      [SpineItem (annotation_chapter_of a); SpineItem (annotation_chapter_of a); SpineNav].
Proof.
  eexists. 
  destruct (C2_annotation_twice_in_spine
              (Examples.quiet_env Examples.two_bodies) Examples.two_bodies [] _ eq_refl)
    as [book [t' [Hrun [Hspine _]]]].
  exists book, t'. split; [reflexivity|]. split; [exact Hrun|].
  rewrite Hspine. reflexivity.
Defined.

(** ** C4: metadata *)

(** The title and the authors the book receives are those of the first
    [title-info]: the text of its first [book-title], and for each of its
    [author] tags the name parts that are present, joined by spaces. *)
Lemma metadata_title_authors (w : Env) (soup : node) (u : string) (ti : element) :
  Soup.find "title-info" (Soup.root soup) = Some ti ->
  book_title (packaged w soup u) =
    match Soup.find "book-title" ti with
    | Some bt => Soup.get_text bt
    | None => "Unknown Title"
    end /\
  authors (packaged w soup u) = map author_name (Soup.find_all ["author"] ti).
Proof.
  intro H. unfold packaged, extract_metadata. rewrite H. simpl. split; reflexivity.
Qed.

Lemma metadata_defaults (w : Env) (soup : node) (u : string) :
  Soup.find "title-info" (Soup.root soup) = None ->
  book_title (packaged w soup u) = "Unknown Title" /\
  authors (packaged w soup u) = [] /\
  language (packaged w soup u) = "en".
Proof.
  intro H. unfold packaged, extract_metadata. rewrite H. simpl. repeat split.
Qed.

(** C4.  What the code does with the language: [extract_metadata] reads the
    [lang] tag into a local variable and does not return it, and
    [convert_fb2_to_epub] sets the language of the book to [en]; so the book
    that reaches the writer has the language [en] for every document, also
    for the example book, whose [lang] tag says [ru]. *)
Theorem C4_language_is_always_en :
  (forall (w : Env) (soup : node) (t : trace),
      exists (book : EpubBook) (t' : trace),
        convert_fb2_to_epub_book w soup tt t = (inr book, tt, t') /\
        language book = "en") /\
  (exists ti lang_tag : element,
      Soup.find "title-info" (Soup.root Examples.two_bodies) = Some ti /\
      Soup.find "lang" ti = Some lang_tag /\
      Soup.get_text lang_tag = "ru").
Proof.
  split.
  - intros w soup t.
    exists (packaged w soup (uuid4 w t)), (t ++ cover_log w soup)%list.
    split; [apply convert_fb2_to_epub_book_run | reflexivity].
  - eexists. eexists. repeat split.
Qed.

(** ** C8: the cover *)

Lemma no_cover_among_html (l : list EpubHtml) : existsb is_cover_item (map Html l) = false.
Proof. induction l as [|h l IH]; simpl; [reflexivity | exact IH]. Qed.

Lemma packaged_has_cover (w : Env) (soup : node) (u : string) :
  has_cover (packaged w soup u) =
  match cover_decoded w soup with Some (inr _) => true | _ => false end.
Proof.
  unfold has_cover, packaged, cover_items. simpl.
  rewrite !existsb_app, !no_cover_among_html. simpl.
  destruct (cover_decoded w soup) as [[e|d]|]; reflexivity.
Qed.

(** C8.  Let the document have a first [binary] node with a JPEG content
    type.  When its stripped text decodes, the book that reaches the writer
    holds the cover image with the decoded bytes.  When decoding raises, the
    exception is caught and logged as a warning, the book reaches the writer
    without a cover, and the conversion ends as [epub.write_epub] ends: it
    returns when the writer finishes the package, it returns as well when
    the writer meets an [OSError], which ebooklib swallows, and it raises
    what the writer raises otherwise; the decoding exception does not reach
    the caller. *)
Theorem C8_cover_decoding_is_local :
  forall (w : Env) (soup : node) (t : trace) (tag : element),
    cover_tag soup = Some tag ->
    (forall data : list byte,
        b64decode w (Py.strip (Soup.get_text tag)) = inr data ->
        exists book : EpubBook,
          convert_fb2_to_epub_book w soup tt t = (inr book, tt, t) /\
          In (EpubCover "cover.jpg" data) (items book) /\
          has_cover book = true) /\
    (forall e : exn,
        b64decode w (Py.strip (Soup.get_text tag)) = inl e ->
        let t1 := (t ++ [Logged WARNING ("Failed to decode cover image: " ++ str_exn e)])%list in
        exists book : EpubBook,
          convert_fb2_to_epub_book w soup tt t = (inr book, tt, t1) /\
          has_cover book = false /\
          forall (fb2_content : list byte) (output_path : string),
            BeautifulSoup w fb2_content = inr soup ->
            convert_fb2_to_epub w fb2_content output_path tt t =
            match write_epub w t1 output_path book with
            | inl e' => if is_os_error e' then (inr tt, tt, t1) else (inl e', tt, t1)
            | inr _ => (inr tt, tt, (t1 ++ [Wrote output_path book])%list)
            end).
Proof.
  intros w soup t tag Htag. split.
  - intros data Hd. exists (packaged w soup (uuid4 w t)).
    assert (Hc : cover_decoded w soup = Some (inr data)).
    { unfold cover_decoded. now rewrite Htag, Hd. }
    split; [|split].
    + rewrite convert_fb2_to_epub_book_run. unfold cover_log. rewrite Hc.
      now rewrite app_nil_r.
    + unfold packaged, cover_items. rewrite Hc. simpl. now left.
    + rewrite packaged_has_cover. now rewrite Hc.
  - intros e He t1. exists (packaged w soup (uuid4 w t)).
    assert (Hc : cover_decoded w soup = Some (inl e)).
    { unfold cover_decoded. now rewrite Htag, He. }
    assert (Hl : (t ++ cover_log w soup)%list = t1).
    { unfold cover_log. now rewrite Hc. }
    split; [|split].
    + rewrite convert_fb2_to_epub_book_run. now rewrite Hl.
    + rewrite packaged_has_cover. now rewrite Hc.
    + intros fb2_content output_path Hp.
      rewrite convert_fb2_to_epub_run, Hp. cbv zeta. rewrite Hl. reflexivity.
Qed.

Lemma C8_cover_decoding_is_local_witness :
  exists tag : element,
    cover_tag Examples.two_bodies = Some tag /\
    (exists book : EpubBook,
        convert_fb2_to_epub_book (Examples.decoding_env Examples.two_bodies)
                                 Examples.two_bodies tt [] = (inr book, tt, []) /\
        has_cover book = true) /\
    (exists book : EpubBook,
        has_cover book = false /\
        convert_fb2_to_epub (Examples.quiet_env Examples.two_bodies) [] "book.epub" tt [] =
        (inr tt, tt,
         [Logged WARNING "Failed to decode cover image: Incorrect padding";
          Wrote "book.epub" book])).
Proof.
  eexists. split; [reflexivity|]. split.
  - destruct (proj1 (C8_cover_decoding_is_local
                       (Examples.decoding_env Examples.two_bodies) Examples.two_bodies []
                       _ eq_refl) [x00] eq_refl) as [book [Hrun [_ Hc]]].
    exists book. split; assumption.
  - destruct (proj2 (C8_cover_decoding_is_local
                       (Examples.quiet_env Examples.two_bodies) Examples.two_bodies []
                       _ eq_refl) (LibraryError "Incorrect padding") eq_refl)
      as [book [_ [Hc Hconv]]].
    exists book. split; [exact Hc|]. rewrite (Hconv [] "book.epub" eq_refl). reflexivity.
Defined.

(** ** C6: nested sections *)

Lemma in_chapters_from (secs : list element) (c : nat) (s : element) :
  In s secs -> exists i : nat, In (epub_chapter_of i s) (chapters_from c secs).
Proof.
  intro H. apply In_nth_error in H. destruct H as [n Hn].
  exists (S (c + n)). destruct (chapters_from_nth secs c n s Hn) as [H1 _].
  eapply nth_error_In. exact H1.
Qed.

Lemma visited_section_has_chapter (w : Env) (soup : node) (u : string) (body s : element) :
  In body (Soup.find_all ["body"] (Soup.root soup)) ->
  In s (Soup.find_all ["section"] body) ->
  exists i : nat, In (Html (epub_chapter_of i s)) (items (packaged w soup u)).
Proof.
  intros Hb Hs.
  assert (Hin : In s (visited_sections soup)).
  { unfold visited_sections. apply in_flat_map. exists body. split; assumption. }
  destruct (in_chapters_from (visited_sections soup) 0 s Hin) as [i Hi].
  exists i. unfold packaged. simpl.
  apply in_or_app. right. apply in_or_app. left.
  apply in_map. exact Hi.
Qed.

(** A paragraph below a title, the title of a nested section included, is
    left out of the content. *)
Lemma title_paragraph_skipped (e : element) :
  Soup.is_named "p" e = true ->
  Soup.find_parent "title" e = true ->
  section_element_html e = EmptyString.
Proof.
  intros Hp Ht. unfold section_element_html. rewrite Hp, Ht. simpl.
  rewrite (is_named_unique "p" "a" e Hp), (is_named_unique "p" "subtitle" e Hp)
    by discriminate.
  reflexivity.
Qed.

(** The content of a section contains the content of each section below it. *)
Lemma nested_content_flattened (outer nested : element) :
  In nested (Soup.find_all ["section"] outer) ->
  exists before after : string,
    process_section_elements outer =
    before ++ process_section_elements nested ++ after.
Proof.
  unfold Soup.find_all. rewrite filter_In. intros [Hin _].
  destruct (descendants_infix (here outer) (parents outer) nested Hin) as [pre [post Heq]].
  rewrite !process_section_elements_join. unfold Soup.find_all.
  unfold Soup.descendants at 1. rewrite Heq.
  change (pre ++ nested :: Soup.descendants nested ++ post)%list
    with (pre ++ [nested] ++ Soup.descendants nested ++ post)%list.
  rewrite !filter_app, !map_app, !join_app.
  eexists. eexists. rewrite <- append_assoc. reflexivity.
Qed.

(** C6.  Chapter assembly walks every section below a body, at any depth: a
    section nested in another section gets a chapter of its own, as the
    enclosing section does, and its content appears once more inside the
    content of the enclosing section's chapter. *)
Theorem C6_nested_section_gets_chapter :
  forall (w : Env) (soup : node) (t : trace) (body outer nested : element),
    In body (Soup.find_all ["body"] (Soup.root soup)) ->
    In outer (Soup.find_all ["section"] body) ->
    In nested (Soup.find_all ["section"] outer) ->
    exists (book : EpubBook) (t' : trace),
      convert_fb2_to_epub_book w soup tt t = (inr book, tt, t') /\
      (exists i : nat, In (Html (epub_chapter_of i outer)) (items book)) /\
      (exists j : nat, In (Html (epub_chapter_of j nested)) (items book)) /\
      (exists before after : string,
          process_section_elements outer =
          before ++ process_section_elements nested ++ after).
Proof.
  intros w soup t body outer nested Hb Ho Hn.
  exists (packaged w soup (uuid4 w t)), (t ++ cover_log w soup)%list.
  split; [apply convert_fb2_to_epub_book_run|]. split; [|split].
  - eapply visited_section_has_chapter; eassumption.
  - eapply visited_section_has_chapter; [exact Hb|].
    eapply find_all_trans; eassumption.
  - apply nested_content_flattened. exact Hn.
Qed.

Lemma C6_nested_section_gets_chapter_witness :
  In Examples.text_body (Soup.find_all ["body"] (Soup.root Examples.two_bodies)) /\
  In Examples.part_one (Soup.find_all ["section"] Examples.text_body) /\
  In Examples.the_teacher (Soup.find_all ["section"] Examples.part_one) /\
  exists (book : EpubBook) (j : nat),
    In (Html (epub_chapter_of j Examples.the_teacher)) (items book) /\
    exists before after : string,
      process_section_elements Examples.part_one =
      before ++ process_section_elements Examples.the_teacher ++ after.
Proof.
  assert (Hb : In Examples.text_body (Soup.find_all ["body"] (Soup.root Examples.two_bodies)))
    by (left; reflexivity).
  assert (Ho : In Examples.part_one (Soup.find_all ["section"] Examples.text_body))
    by (left; reflexivity).
  assert (Hn : In Examples.the_teacher (Soup.find_all ["section"] Examples.part_one))
    by (left; reflexivity).
  split; [exact Hb|]. split; [exact Ho|]. split; [exact Hn|].
  destruct (C6_nested_section_gets_chapter
              (Examples.quiet_env Examples.two_bodies) Examples.two_bodies []
              Examples.text_body Examples.part_one Examples.the_teacher Hb Ho Hn)
    as [book [t' [_ [_ [[j Hj] Hflat]]]]].
  exists book, j. split; assumption.
Defined.

(** C6, as the specification words it, fails on the example book: the
    section about the teacher lies inside the section Part one and is the
    chapter with ordinal 2. *)
Lemma C6_nested_section_chapter_counterexample :
  (exists (book : EpubBook) (t' : trace),
      convert_fb2_to_epub_book (Examples.quiet_env Examples.two_bodies)
                               Examples.two_bodies tt [] = (inr book, tt, t') /\
      In Examples.text_body (Soup.find_all ["body"] (Soup.root Examples.two_bodies)) /\
      In Examples.part_one (Soup.find_all ["section"] Examples.text_body) /\
      In Examples.the_teacher (Soup.find_all ["section"] Examples.part_one) /\
      In (Html (epub_chapter_of 2 Examples.the_teacher)) (items book) /\
      file_name (epub_chapter_of 2 Examples.the_teacher) = "chapter_2.xhtml") /\
  ~ nested_sections_make_no_chapter.
Proof.
  assert (Hrun := convert_fb2_to_epub_book_run
                    (Examples.quiet_env Examples.two_bodies) Examples.two_bodies tt []).
  assert (Hin : In (Html (epub_chapter_of 2 Examples.the_teacher))
                   (items (packaged (Examples.quiet_env Examples.two_bodies)
                                    Examples.two_bodies
                                    (uuid4 (Examples.quiet_env Examples.two_bodies) []))))
    by (vm_compute; right; left; reflexivity).
  split.
  - eexists. eexists. split; [exact Hrun|].
    split; [left; reflexivity|]. split; [left; reflexivity|].
    split; [left; reflexivity|]. split; [exact Hin | reflexivity].
  - intro H.
    apply (H (Examples.quiet_env Examples.two_bodies) Examples.two_bodies [] _ _
             Examples.text_body Examples.part_one Examples.the_teacher 2 Hrun).
    + left; reflexivity.
    + left; reflexivity.
    + left; reflexivity.
    + exact Hin.
Qed.

(** ** The single-file driver *)

Lemma convert_file_run {L} (w : Env) (fb2_path : string) (l : L) (t : trace) :
  convert_file w fb2_path l t =
  if os_path_exists w t fb2_path then
    match open_read w t fb2_path with
    | inl e =>
        (inl unbound_output_path, l,
         (t ++ [Logged ERROR ("Failed to convert FB2 to EPUB: " ++ str_exn e)])%list)
    | inr fb2_content =>
        let output_path := file_output_path fb2_path in
        match convert_fb2_to_epub w fb2_content output_path tt t with
        | (inl e, _, t1) =>
            (inr output_path, l,
             (t1 ++ [Logged ERROR ("Failed to convert FB2 to EPUB: " ++ str_exn e)])%list)
        | (inr _, _, t1) =>
            (inr output_path, l,
             (t1 ++ [Logged INFO ("Created EPUB book: " ++ output_path)])%list)
        end
    end
  else
    (inl unbound_output_path, l,
     (t ++ [Logged ERROR "Failed to convert FB2 to EPUB: FB2 file does not exist"])%list).
Proof.
  unfold convert_file, convert_file_try, file_output_path.
  unfold Run.call, Run.try_except, Run.bind, Run.ask, Run.lift, Run.raise, Run.ret,
    Run.logging, Run.emit, Run.get_locals, Run.set_locals.
  destruct (os_path_exists w t fb2_path); simpl; [|reflexivity].
  destruct (open_read w t fb2_path) as [e|fb2_content]; simpl; [reflexivity|].
  destruct (convert_fb2_to_epub w fb2_content _ tt t) as [[[e|u] l'] t1]; reflexivity.
Qed.

(** C5.  When the input file exists and can be read, [convert_file] returns
    the output path derived from the input path in every case, and no
    exception reaches the caller.  An exception of the parser, and an
    exception of the writer that is not an [OSError], is caught inside
    [convert_file] and logged as an error.  An [OSError] of the writer does
    not even reach [convert_file]: [epub.write_epub] swallows it, and
    [convert_file] logs that the book was created although no package was
    finished. *)
Theorem C5_conversion_failures_are_logged :
  forall (w : Env) (fb2_path : string) (t : trace) (fb2_content : list byte),
    os_path_exists w t fb2_path = true ->
    open_read w t fb2_path = inr fb2_content ->
    let output_path := file_output_path fb2_path in
    (exists t' : trace, convert_file w fb2_path tt t = (inr output_path, tt, t')) /\
    (forall e : exn,
        BeautifulSoup w fb2_content = inl e ->
        convert_file w fb2_path tt t =
        (inr output_path, tt,
         (t ++ [Logged ERROR ("Failed to convert FB2 to EPUB: " ++ str_exn e)])%list)) /\
    (forall (soup : node) (e : exn),
        BeautifulSoup w fb2_content = inr soup ->
        let t1 := (t ++ cover_log w soup)%list in
        write_epub w t1 output_path (packaged w soup (uuid4 w t)) = inl e ->
        convert_file w fb2_path tt t =
        (inr output_path, tt,
         (t1 ++ [if is_os_error e
                 then Logged INFO ("Created EPUB book: " ++ output_path)
                 else Logged ERROR ("Failed to convert FB2 to EPUB: " ++ str_exn e)])%list)).
Proof.
  intros w fb2_path t fb2_content Hex Hrd output_path.
  rewrite convert_file_run, Hex, Hrd. cbv zeta. fold output_path.
  split; [|split].
  - destruct (convert_fb2_to_epub w fb2_content output_path tt t) as [[[e|u] l'] t1];
      eexists; reflexivity.
  - intros e He. rewrite convert_fb2_to_epub_run, He. reflexivity.
  - intros soup e Hs Hw. rewrite convert_fb2_to_epub_run, Hs. cbv zeta.
    rewrite Hw. destruct (is_os_error e); reflexivity.
Qed.

Lemma C5_conversion_failures_are_logged_witness :
  (os_path_exists Examples.no_parser_env [] "downloads/book.fb2" = true /\
   open_read Examples.no_parser_env [] "downloads/book.fb2" = inr [] /\
   exists msg : string,
     convert_file Examples.no_parser_env "downloads/book.fb2" tt [] =
     (inr "book.epub", tt, [Logged ERROR ("Failed to convert FB2 to EPUB: " ++ msg)])) /\
  (os_path_exists Examples.full_disk_env [] "downloads/book.fb2" = true /\
   open_read Examples.full_disk_env [] "downloads/book.fb2" = inr [] /\
   convert_file Examples.full_disk_env "downloads/book.fb2" tt [] =
   (inr "book.epub", tt, [Logged INFO "Created EPUB book: book.epub"])).
Proof.
  split.
  - split; [reflexivity|]. split; [reflexivity|]. eexists.
    exact (proj1 (proj2 (C5_conversion_failures_are_logged
                           Examples.no_parser_env "downloads/book.fb2" [] []
                           eq_refl eq_refl))
                 _ eq_refl).
  - split; [reflexivity|]. split; [reflexivity|].
    exact (proj2 (proj2 (C5_conversion_failures_are_logged
                           Examples.full_disk_env "downloads/book.fb2" [] []
                           eq_refl eq_refl))
                 Examples.intro_hello
                 (OSError "[Errno 28] No space left on device") eq_refl eq_refl).
Defined.

(** C5, as the specification words it, fails in two ways.  On a machine
    without the parser the conversion raises, and [convert_file] logs the
    error and returns [book.epub] all the same.  On a machine whose disk is
    full the writer meets an [OSError], the conversion returns, and
    [convert_file] logs a success and returns [book.epub] although no package
    was finished. *)
Lemma C5_write_failure_counterexample :
  ((exists e : exn,
       convert_fb2_to_epub Examples.no_parser_env [] "book.epub" tt [] = (inl e, tt, []) /\
       convert_file Examples.no_parser_env "downloads/book.fb2" tt [] =
         (inr "book.epub", tt,
          [Logged ERROR ("Failed to convert FB2 to EPUB: " ++ str_exn e)])) /\
   write_epub Examples.full_disk_env [] "book.epub"
              (packaged Examples.full_disk_env Examples.intro_hello
                        (uuid4 Examples.full_disk_env [])) =
     inl (OSError "[Errno 28] No space left on device") /\
   convert_file Examples.full_disk_env "downloads/book.fb2" tt [] =
     (inr "book.epub", tt, [Logged INFO "Created EPUB book: book.epub"])) /\
  ~ convert_file_reports_failures.
Proof.
  split.
  - split; [|split; reflexivity].
    eexists. split; reflexivity.
  - intro H.
    destruct (H Examples.full_disk_env "downloads/book.fb2" []) as [e [t' Hraise]].
    + right. right.
      exists [], Examples.intro_hello, (OSError "[Errno 28] No space left on device").
      repeat split.
    + rewrite convert_file_run in Hraise. simpl in Hraise. discriminate.
Qed.

(** What [convert_file] does when the input is missing: the handler logs the
    [FileNotFoundError], and the [return] after it reads a variable that was
    never assigned. *)
Lemma convert_file_missing_input (w : Env) (fb2_path : string) (t : trace) :
  os_path_exists w t fb2_path = false ->
  convert_file w fb2_path tt t =
  (inl unbound_output_path, tt,
   (t ++ [Logged ERROR "Failed to convert FB2 to EPUB: FB2 file does not exist"])%list).
Proof. intro H. now rewrite convert_file_run, H. Qed.

(** ** The batch driver *)

Lemma convert_entry_run (w : Env) (z : archive) (name : string)
      (epub_files : list string) (t : trace) :
  convert_entry w z name epub_files t =
  match entry_outcome w z name t with
  | (inr _, t') => (inr tt, (epub_files ++ [entry_output_path name])%list, t')
  | (inl e, t') => (inl e, epub_files, t')
  end.
Proof.
  unfold entry_outcome, convert_entry, entry_output_path.
  unfold Run.call, Run.bind, Run.lift, Run.raise, Run.ret, Run.logging, Run.emit,
    Run.get_locals, Run.set_locals.
  destruct (Zip.read z name) as [[e|fb2_content]|]; simpl; try reflexivity.
  destruct (convert_fb2_to_epub w fb2_content _ tt t) as [[[e|u] l'] t1]; reflexivity.
Qed.

Lemma for_each_all_succeed (w : Env) (z : archive) (names : list string) :
  forall (epub_files : list string) (t t1 : trace),
    succeed_in_turn w z names t = Some t1 ->
    Run.for_each names (convert_entry w z) epub_files t =
    (inr tt, (epub_files ++ map entry_output_path names)%list, t1).
Proof.
  induction names as [|n ns IH]; intros epub_files t t1 H; simpl in *.
  - injection H as ->. now rewrite app_nil_r.
  - unfold Run.bind. rewrite convert_entry_run.
    destruct (entry_outcome w z n t) as [[e|u] t']; [discriminate|].
    rewrite (IH _ _ _ H), <- app_assoc. reflexivity.
Qed.

Lemma for_each_first_failure (w : Env) (z : archive) (done : list string) :
  forall (bad : string) (rest : list string) (epub_files : list string)
         (t t1 t2 : trace) (e : exn),
    succeed_in_turn w z done t = Some t1 ->
    entry_outcome w z bad t1 = (inl e, t2) ->
    Run.for_each (done ++ bad :: rest) (convert_entry w z) epub_files t =
    (inl e, (epub_files ++ map entry_output_path done)%list, t2).
Proof.
  induction done as [|n ns IH]; intros bad rest epub_files t t1 t2 e Hd Hb; simpl in *.
  - injection Hd as ->. unfold Run.bind. rewrite convert_entry_run, Hb.
    now rewrite app_nil_r.
  - unfold Run.bind. rewrite convert_entry_run.
    destruct (entry_outcome w z n t) as [[e'|u] t']; [discriminate|].
    rewrite (IH bad rest _ _ _ _ _ Hd Hb), <- app_assoc. reflexivity.
Qed.

Lemma convert_archive_run {L} (w : Env) (zip_path : string) (l : L) (t : trace) :
  convert_archive w zip_path l t =
  if os_path_exists w t zip_path then
    match ZipFile w t zip_path with
    | inl e => (inr [], l, (t ++ [archive_error_log e])%list)
    | inr z =>
        if is_nil (fb2_entries z) then
          (inr [], l,
           (t ++ [archive_error_log (ValueError "No FB2 files found in the ZIP archive")])%list)
        else
          match Run.for_each (fb2_entries z) (convert_entry w z) [] t with
          | (inl e, epub_files, t1) => (inr epub_files, l, (t1 ++ [archive_error_log e])%list)
          | (inr _, epub_files, t1) => (inr epub_files, l, t1)
          end
    end
  else
    (inr [], l, (t ++ [archive_error_log (FileNotFoundError "ZIP file does not exist")])%list).
Proof.
  unfold convert_archive, convert_archive_try, fb2_entries, archive_error_log.
  unfold Run.call, Run.try_except, Run.bind at 1 2 3 4, Run.ask, Run.lift, Run.raise,
    Run.ret, Run.logging, Run.emit, Run.get_locals.
  destruct (os_path_exists w t zip_path); simpl; [|reflexivity].
  destruct (ZipFile w t zip_path) as [e|z]; simpl; [reflexivity|].
  destruct (is_nil _); simpl; [reflexivity|].
  destruct (Run.for_each _ _ [] t) as [[[e|u] files] t1]; reflexivity.
Qed.

(** C3.  When the archive opens, [convert_archive] converts its [.fb2]
    entries in listing order up to the first one for which reading, parsing
    or writing raises an exception: it returns the output paths of the
    entries before that one, logs the exception, and converts none of the
    entries after it.  When no entry raises it returns the output paths of
    all of them.  ([epub.write_epub] swallows an [OSError] of its writer:
    such an entry raises nothing and is returned like a converted one.) *)
Theorem C3_archive_stops_at_first_failure :
  forall (w : Env) (zip_path : string) (t : trace) (z : archive),
    os_path_exists w t zip_path = true ->
    ZipFile w t zip_path = inr z ->
    (forall (done : list string) (bad : string) (rest : list string)
            (t1 t2 : trace) (e : exn),
        fb2_entries z = (done ++ bad :: rest)%list ->
        succeed_in_turn w z done t = Some t1 ->
        entry_outcome w z bad t1 = (inl e, t2) ->
        convert_archive w zip_path tt t =
        (inr (map entry_output_path done), tt, (t2 ++ [archive_error_log e])%list)) /\
    (forall t1 : trace,
        fb2_entries z <> [] ->
        succeed_in_turn w z (fb2_entries z) t = Some t1 ->
        convert_archive w zip_path tt t =
        (inr (map entry_output_path (fb2_entries z)), tt, t1)).
Proof.
  intros w zip_path t z Hex Hz. split.
  - intros done bad rest t1 t2 e Hsplit Hd Hb.
    rewrite convert_archive_run, Hex, Hz, Hsplit.
    rewrite (for_each_first_failure w z done bad rest [] t t1 t2 e Hd Hb).
    destruct done; reflexivity.
  - intros t1 Hne Hall.
    rewrite convert_archive_run, Hex, Hz.
    rewrite (for_each_all_succeed w z (fb2_entries z) [] t t1 Hall).
    destruct (fb2_entries z); [contradiction | reflexivity].
Qed.

Lemma C3_archive_stops_at_first_failure_witness :
  os_path_exists Examples.damaged_archive_env [] "books.zip" = true /\
  ZipFile Examples.damaged_archive_env [] "books.zip" = inr Examples.damaged_archive /\
  fb2_entries Examples.damaged_archive = ["intro.fb2"; "broken.fb2"; "second.fb2"] /\
  fst (fst (convert_archive Examples.damaged_archive_env "books.zip" tt [])) =
    inr ["intro.epub"] /\
  written (snd (convert_archive Examples.damaged_archive_env "books.zip" tt [])) =
    ["intro.epub"].
Proof.
  split; [reflexivity|]. split; [reflexivity|]. split; [reflexivity|].
  rewrite (proj1 (C3_archive_stops_at_first_failure
                    Examples.damaged_archive_env "books.zip" [] Examples.damaged_archive
                    eq_refl eq_refl)
                 ["intro.fb2"] "broken.fb2" ["second.fb2"] _ _ _
                 eq_refl eq_refl eq_refl).
  split; reflexivity.
Defined.

(** C3, as the specification words it, fails on an archive whose second
    entry is damaged: reading that entry raises, the third entry converts
    when it is tried, the skipping driver returns [intro.epub] and
    [second.epub], and [convert_archive] returns [intro.epub] alone. *)
Lemma C3_skipping_counterexample :
  (Zip.read Examples.damaged_archive "broken.fb2" =
     Some (inl (LibraryError "Bad CRC-32 for file 'broken.fb2'")) /\
   fst (entry_outcome Examples.damaged_archive_env Examples.damaged_archive
                      "second.fb2" []) = inr tt /\
   fst (fst (convert_archive_skipping Examples.damaged_archive_env "books.zip" tt [])) =
     inr ["intro.epub"; "second.epub"] /\
   fst (fst (convert_archive Examples.damaged_archive_env "books.zip" tt [])) =
     inr ["intro.epub"]) /\
  ~ archive_skips_failed_entries.
Proof.
  split; [repeat split; vm_compute; reflexivity|].
  intro H. specialize (H Examples.damaged_archive_env "books.zip" []).
  vm_compute in H. discriminate.
Qed.

(** An entry whose package cannot be written for an [OSError] does not stop
    the loop: on the machine without the folder [stories] the writer meets a
    [FileNotFoundError] for the second entry, [epub.write_epub] swallows it,
    and [convert_archive] returns all three paths, the one of the package
    that was not written among them. *)
Lemma convert_archive_missing_folder :
  fst (fst (convert_archive Examples.no_folder_env "books.zip" tt [])) =
    inr ["intro.epub"; "stories/first.epub"; "second.epub"] /\
  written (snd (convert_archive Examples.no_folder_env "books.zip" tt [])) =
    ["intro.epub"; "second.epub"].
Proof. split; vm_compute; reflexivity. Qed.

(** ** C10: the batch driver always returns *)

(** C10.  [convert_archive] returns a list of output paths for every path
    and every machine, and raises nothing: the list is empty when the path
    is missing, when the file does not open as an archive, and when the
    archive has no [.fb2] entry; when an entry raises, the list holds the
    paths appended before it. *)
Theorem C10_convert_archive_always_returns :
  forall (w : Env) (zip_path : string) (t : trace),
    exists (epub_files : list string) (t' : trace),
      convert_archive w zip_path tt t = (inr epub_files, tt, t') /\
      (os_path_exists w t zip_path = false -> epub_files = []) /\
      (forall e : exn, ZipFile w t zip_path = inl e -> epub_files = []) /\
      (forall z : archive,
          ZipFile w t zip_path = inr z -> fb2_entries z = [] -> epub_files = []) /\
      (forall (z : archive) (e : exn) (files : list string) (t1 : trace),
          os_path_exists w t zip_path = true ->
          ZipFile w t zip_path = inr z ->
          fb2_entries z <> [] ->
          Run.for_each (fb2_entries z) (convert_entry w z) [] t = (inl e, files, t1) ->
          epub_files = files).
Proof.
  intros w zip_path t. rewrite convert_archive_run.
  destruct (os_path_exists w t zip_path) eqn:Hex.
  - destruct (ZipFile w t zip_path) as [e|z] eqn:Hz.
    + eexists. eexists. split; [reflexivity|].
      split; [reflexivity|]. split; [reflexivity|].
      split; [intros z0 Hz0; discriminate | intros z0 e0 files0 t0 _ Hz0; discriminate].
    + destruct (is_nil (fb2_entries z)) eqn:Hnil.
      * eexists. eexists. split; [reflexivity|].
        split; [reflexivity|]. split; [reflexivity|]. split; [reflexivity|].
        intros z0 e0 files0 t0 _ Hz0 Hne _. injection Hz0 as <-.
        destruct (fb2_entries z); [contradiction | discriminate].
      * destruct (Run.for_each (fb2_entries z) (convert_entry w z) [] t)
          as [[[e|u] files] t1] eqn:Hrun.
        -- eexists. eexists. split; [reflexivity|].
           split; [discriminate|]. split; [discriminate|]. split.
           ++ intros z0 Hz0 Hf. injection Hz0 as <-. rewrite Hf in Hnil. discriminate.
           ++ intros z0 e0 files0 t0 _ Hz0 _ Hrun0. injection Hz0 as <-. congruence.
        -- eexists. eexists. split; [reflexivity|].
           split; [discriminate|]. split; [discriminate|]. split.
           ++ intros z0 Hz0 Hf. injection Hz0 as <-. rewrite Hf in Hnil. discriminate.
           ++ intros z0 e0 files0 t0 _ Hz0 _ Hrun0. injection Hz0 as <-. congruence.
  - eexists. eexists. split; [reflexivity|].
    split; [reflexivity|]. split; [reflexivity|]. split; [reflexivity|].
    intros z0 e0 files0 t0 Hex0. discriminate.
Qed.

(* ================================================================== *)
(** * Further properties of the formatter *)

Lemma section_element_html_link (a : element) :
  Soup.is_named "a" a = true -> section_element_html a = link_html a.
Proof.
  intro Ha. unfold section_element_html.
  rewrite (is_named_unique "a" "p" a Ha) by discriminate. now rewrite Ha.
Qed.

Lemma section_element_html_subtitle (s : element) :
  Soup.is_named "subtitle" s = true -> section_element_html s = subtitle_html s.
Proof.
  intro Hs. unfold section_element_html.
  rewrite (is_named_unique "subtitle" "p" s Hs), (is_named_unique "subtitle" "a" s Hs)
    by discriminate.
  now rewrite Hs.
Qed.

Lemma find_all_single (nm : string) (e d : element) :
  In d (Soup.find_all [nm] e) <-> In d (Soup.descendants e) /\ Soup.is_named nm d = true.
Proof. unfold Soup.find_all. now rewrite filter_In, is_named_in_single. Qed.

Lemma rendered_of_named (nm : string) (d : element) :
  In nm ["p"; "a"; "subtitle"] ->
  Soup.is_named nm d = true -> Soup.is_named_in ["p"; "a"; "subtitle"] d = true.
Proof.
  intros Hnm Hd. unfold Soup.is_named_in. apply existsb_exists.
  exists nm. split; assumption.
Qed.

(** What an element of the walk adds is a piece of the content. *)
Lemma element_html_in_content (section d : element) :
  In d (Soup.find_all ["p"; "a"; "subtitle"] section) ->
  exists before after : string,
    process_section_elements section = before ++ section_element_html d ++ after.
Proof.
  intro H. apply in_split in H. destruct H as [l1 [l2 Heq]].
  rewrite process_section_elements_join, Heq.
  rewrite map_app, join_app. simpl map. rewrite join_cons.
  eexists. eexists. reflexivity.
Qed.

(** X1.  No link and no subtitle is dropped: every [a] and every [subtitle]
    below a section, at any depth and also inside a title, contributes its
    rendering to the content of the section. *)
Theorem links_and_subtitles_always_rendered :
  forall section d : element,
    In d (Soup.descendants section) ->
    (Soup.is_named "a" d = true ->
     exists before after : string,
       process_section_elements section = before ++ link_html d ++ after) /\
    (Soup.is_named "subtitle" d = true ->
     exists before after : string,
       process_section_elements section = before ++ subtitle_html d ++ after).
Proof.
  intros section d Hd. split; intro Hn.
  - rewrite <- (section_element_html_link d Hn).
    apply element_html_in_content. unfold Soup.find_all. apply filter_In.
    split; [exact Hd|]. apply (rendered_of_named "a"); [simpl; tauto | exact Hn].
  - rewrite <- (section_element_html_subtitle d Hn).
    apply element_html_in_content. unfold Soup.find_all. apply filter_In.
    split; [exact Hd|]. apply (rendered_of_named "subtitle"); [simpl; tauto | exact Hn].
Qed.

Lemma links_and_subtitles_always_rendered_witness :
  exists before after : string,
    process_section_elements
      (Element ["body"] (Tag "section" []
         [Tag "title" [] [Tag "p" [] [Tag "a" [("l:href", "#n1")] [NavigableString "1"]]]]))
    = before ++ link_html (Element ["p"; "title"; "section"; "body"]
                             (Tag "a" [("l:href", "#n1")] [NavigableString "1"])) ++ after.
Proof.
  apply (proj1 (links_and_subtitles_always_rendered
     (Element ["body"] (Tag "section" []
         [Tag "title" [] [Tag "p" [] [Tag "a" [("l:href", "#n1")] [NavigableString "1"]]]]))
     (Element ["p"; "title"; "section"; "body"]
              (Tag "a" [("l:href", "#n1")] [NavigableString "1"]))
     (or_intror (or_intror (or_introl eq_refl))))).
  reflexivity.
Defined.

(** X2.  A paragraph outside any title that has a link and no emphasis loses
    its text, and the link is rendered after it: the content of the section
    holds the empty paragraph and, further on, the link. *)
Theorem linked_paragraph_is_emptied_and_link_follows :
  forall section p a : element,
    In p (Soup.find_all ["p"] section) ->
    Soup.find_parent "title" p = false ->
    Soup.find "emphasis" p = None ->
    In a (Soup.find_all ["a"] p) ->
    exists before middle after : string,
      process_section_elements section =
      before ++ (p_open ++ "</p>") ++ middle ++ link_html a ++ after.
Proof.
  intros section p a Hp Ht Hem Ha.
  apply find_all_single in Hp. destruct Hp as [Hp Hpn].
  apply find_all_single in Ha. destruct Ha as [Ha Han].
  assert (Hhtml : section_element_html p = p_open ++ "</p>").
  { unfold section_element_html. rewrite Hpn, Ht. simpl.
    unfold process_paragraph. rewrite Hem.
    destruct (Soup.find "a" p) as [x|] eqn:Hf; [reflexivity|].
    exfalso. unfold Soup.find, Soup.find_all in Hf.
    assert (Hin : In a (filter (Soup.is_named_in ["a"]) (Soup.descendants p))).
    { apply filter_In. split; [exact Ha | now rewrite is_named_in_single]. }
    destruct (filter (Soup.is_named_in ["a"]) (Soup.descendants p));
      [contradiction | discriminate]. }
  destruct (descendants_infix (here section) (parents section) p Hp) as [pre [post Heq]].
  apply in_split in Ha. destruct Ha as [l1 [l2 Hsplit]].
  rewrite process_section_elements_join. unfold Soup.find_all.
  unfold Soup.descendants at 1. rewrite Heq, Hsplit.
  rewrite filter_app, filter_head.
  rewrite (rendered_of_named "p" p) by (simpl; tauto || exact Hpn).
  rewrite !filter_app, filter_head.
  rewrite (rendered_of_named "a" a) by (simpl; tauto || exact Han).
  rewrite map_app, join_app. simpl map. rewrite join_cons.
  rewrite !map_app, !join_app. simpl map. rewrite join_cons.
  rewrite Hhtml, (section_element_html_link a Han).
  exists (Py.join (map section_element_html
                     (filter (Soup.is_named_in ["p"; "a"; "subtitle"]) pre))),
         (Py.join (map section_element_html
                     (filter (Soup.is_named_in ["p"; "a"; "subtitle"]) l1))),
         (Py.join (map section_element_html
                     (filter (Soup.is_named_in ["p"; "a"; "subtitle"]) l2))
          ++ Py.join (map section_element_html
                        (filter (Soup.is_named_in ["p"; "a"; "subtitle"]) post))).
  rewrite !append_assoc. reflexivity.
Qed.

Lemma linked_paragraph_is_emptied_and_link_follows_witness :
  In footnote_paragraph (Soup.find_all ["p"] footnote_section) /\
  In footnote_link (Soup.find_all ["a"] footnote_paragraph) /\
  exists before middle after : string,
    process_section_elements footnote_section =
    before ++ (p_open ++ "</p>") ++ middle ++ link_html footnote_link ++ after.
Proof.
  assert (Hp : In footnote_paragraph (Soup.find_all ["p"] footnote_section))
    by (left; reflexivity).
  assert (Ha : In footnote_link (Soup.find_all ["a"] footnote_paragraph))
    by (left; reflexivity).
  split; [exact Hp|]. split; [exact Ha|].
  exact (linked_paragraph_is_emptied_and_link_follows
           footnote_section footnote_paragraph footnote_link Hp eq_refl eq_refl Ha).
Defined.

(** ** Blank titles *)

Lemma lstrip_all_space (s : string) : all_space s = true -> Py.lstrip s = EmptyString.
Proof.
  unfold all_space. induction s as [|c s IH]; simpl; intro H.
  - reflexivity.
  - apply andb_prop in H. destruct H as [Hc Hs]. rewrite Hc. now apply IH.
Qed.

Lemma strip_all_space (s : string) : all_space s = true -> Py.strip s = EmptyString.
Proof. intro H. unfold Py.strip. now rewrite (lstrip_all_space s H). Qed.

Lemma get_text_strip_blank (e : element) :
  blank e = true -> Soup.get_text_strip e = EmptyString.
Proof.
  unfold blank, Soup.get_text_strip. intro H.
  rewrite filter_none; [reflexivity|].
  intros x Hx. apply in_map_iff in Hx. destruct Hx as [s [Hs Hin]].
  rewrite forallb_forall in H. rewrite <- Hs, (strip_all_space s (H s Hin)). reflexivity.
Qed.

(** X3.  A section whose first title holds only white space gets the empty
    string as chapter title and as label of its link, not the default
    [Chapter n]: the default is for sections without any title tag. *)
Theorem blank_title_gives_empty_chapter_title :
  forall (n : nat) (section t : element),
    Soup.find "title" section = Some t ->
    blank t = true ->
    title (epub_chapter_of n section) = EmptyString /\
    link_title (chapter_link_of n section) = EmptyString /\
    content (epub_chapter_of n section) =
      "<h1></h1>" ++ process_section_elements section.
Proof.
  intros n section t Hf Hb.
  unfold epub_chapter_of, chapter_link_of, section_title_of. simpl.
  rewrite Hf, (get_text_strip_blank t Hb). repeat split.
Qed.

Lemma blank_title_gives_empty_chapter_title_witness :
  exists section : element,
    In section (visited_sections bare_document) /\
    title (epub_chapter_of 1 section) = EmptyString /\
    content (epub_chapter_of 1 section) = "<h1></h1>" ++ p_open ++ "Text</p>".
Proof.
  exists (hd (Soup.root bare_document) (visited_sections bare_document)).
  split; [left; reflexivity|].
  destruct (blank_title_gives_empty_chapter_title 1
              (hd (Soup.root bare_document) (visited_sections bare_document))
              _ eq_refl eq_refl) as [H1 [_ H3]].
  split; [exact H1 | rewrite H3; reflexivity].
Defined.

(* ================================================================== *)
(** * Further properties of the package *)

Lemma str_of_nat_inj (n m : nat) : Py.str_of_nat n = Py.str_of_nat m -> n = m.
Proof.
  unfold Py.str_of_nat. intro H.
  apply DecimalNat.Unsigned.to_uint_inj.
  apply (f_equal NilEmpty.uint_of_string) in H.
  rewrite !NilEmpty.usu in H. now injection H.
Qed.

Lemma append_inj_l (a x y : string) : a ++ x = a ++ y -> x = y.
Proof.
  induction a as [|c a IH]; simpl; intro H; [exact H|].
  injection H as H. now apply IH.
Qed.

Lemma append_length (a b : string) :
  String.length (a ++ b) = String.length a + String.length b.
Proof. induction a as [|c a IH]; simpl; [reflexivity | now rewrite IH]. Qed.

Lemma append_inj_r (b x y : string) : x ++ b = y ++ b -> x = y.
Proof.
  revert y. induction x as [|c x IH]; intros [|d y] H; simpl in *.
  - reflexivity.
  - apply (f_equal String.length) in H. simpl in H. rewrite append_length in H. lia.
  - apply (f_equal String.length) in H. simpl in H. rewrite append_length in H. lia.
  - injection H as -> H. f_equal. now apply IH.
Qed.

Lemma chapter_file_name_inj (n m : nat) :
  chapter_file_name_of n = chapter_file_name_of m -> n = m.
Proof.
  unfold chapter_file_name_of. intro H.
  apply append_inj_l, append_inj_r in H. now apply str_of_nat_inj.
Qed.

Lemma NoDup_map_injective {A B} (f : A -> B) (l : list A) :
  (forall x y, f x = f y -> x = y) -> NoDup l -> NoDup (map f l).
Proof.
  intros Hinj Hl. induction Hl as [|x l Hx Hl IH]; simpl; constructor.
  - intro H. apply in_map_iff in H. destruct H as [y [Hy Hin]].
    apply Hinj in Hy. now subst y.
  - exact IH.
Qed.

Lemma chapter_file_names_NoDup (secs : list element) (c : nat) :
  NoDup (map file_name (chapters_from c secs)).
Proof.
  rewrite chapters_from_file_names.
  apply NoDup_map_injective; [exact chapter_file_name_inj | apply seq_NoDup].
Qed.

Lemma chapter_file_name_not_annotation (secs : list element) (c : nat) :
  ~ In "annotation.xhtml" (map file_name (chapters_from c secs)).
Proof.
  rewrite chapters_from_file_names. intro H. apply in_map_iff in H.
  destruct H as [n [Hn _]]. unfold chapter_file_name_of in Hn. simpl in Hn. discriminate.
Qed.

(** X4.  No two XHTML documents of the package share a file name: the
    chapter names differ from one another, whatever the number of sections,
    and from the name of the annotation chapter. *)
Theorem package_file_names_are_distinct :
  forall (w : Env) (soup : node) (t : trace),
    exists (book : EpubBook) (t' : trace),
      convert_fb2_to_epub_book w soup tt t = (inr book, tt, t') /\
      NoDup (map file_name (html_items (items book))).
Proof.
  intros w soup t.
  exists (packaged w soup (uuid4 w t)), (t ++ cover_log w soup)%list.
  split; [apply convert_fb2_to_epub_book_run|].
  rewrite packaged_html_items, map_app. apply NoDup_app.
  - apply chapter_file_names_NoDup.
  - unfold annotation_chapters. destruct (annotation_of soup); simpl.
    + constructor; [intros [] | constructor].
    + constructor.
  - intros x Hx Hann. unfold annotation_chapters in Hann.
    destruct (annotation_of soup); simpl in Hann; [|contradiction].
    destruct Hann as [<- | []].
    exact (chapter_file_name_not_annotation (visited_sections soup) 0 Hx).
Qed.

Lemma link_has_chapter (secs : list element) (c : nat) (l : Link) :
  In l (links_from c secs) ->
  exists h : EpubHtml,
    In h (chapters_from c secs) /\ href l = file_name h /\ link_title l = title h.
Proof.
  unfold links_from, chapters_from. intro H. apply in_map_iff in H.
  destruct H as [p [Hp Hin]].
  exists (epub_chapter_of (fst p) (snd p)). split.
  - apply in_map_iff. exists p. split; [reflexivity | exact Hin].
  - subst l. split; reflexivity.
Qed.

Lemma chapter_not_cover_page (secs : list element) (c : nat) (h : EpubHtml) :
  In h (chapters_from c secs) -> file_name h <> "cover.xhtml".
Proof.
  intros Hin Heq. apply (in_map file_name) in Hin.
  rewrite chapters_from_file_names in Hin. apply in_map_iff in Hin.
  destruct Hin as [n [Hn _]]. rewrite Heq in Hn.
  unfold chapter_file_name_of in Hn. simpl in Hn. discriminate.
Qed.

(** X5.  Spine, table of contents and manifest agree, the cover page apart.
    Every document of the spine is an item of the book; every chapter, the
    annotation chapter and the Nav document are items that the spine lists;
    every link of the table of contents points to a document of the book
    and carries its title.  The cover page ([cover.xhtml], added by
    [set_cover] when a cover decodes) is an item that the spine does not
    list. *)
Theorem spine_lists_every_document_but_the_cover_page :
  forall (w : Env) (soup : node) (t : trace),
    exists (book : EpubBook) (t' : trace),
      convert_fb2_to_epub_book w soup tt t = (inr book, tt, t') /\
      (forall h : EpubHtml, In (SpineItem h) (spine book) -> In (Html h) (items book)) /\
      (forall i : EpubItem,
          In i (items book) ->
          match i with
          | Html h => In (SpineItem h) (spine book)
          | EpubNav => In SpineNav (spine book)
          | _ => True
          end) /\
      (has_cover book = true -> In (EpubCoverHtml "cover.jpg") (items book)) /\
      (forall h : EpubHtml, In (SpineItem h) (spine book) -> file_name h <> "cover.xhtml") /\
      (forall l : Link,
          In l (toc book) ->
          exists h : EpubHtml,
            In (Html h) (items book) /\ href l = file_name h /\ link_title l = title h).
Proof.
  intros w soup t.
  exists (packaged w soup (uuid4 w t)), (t ++ cover_log w soup)%list.
  split; [apply convert_fb2_to_epub_book_run|].
  assert (Hitems : forall h, In (Html h) (items (packaged w soup (uuid4 w t))) <->
                             In h (chapters_of soup) \/ In h (annotation_chapters soup)).
  { intro h. unfold packaged. simpl. rewrite !in_app_iff. split.
    - intros [H | [H | [H | H]]].
      + unfold cover_items in H.
        destruct (cover_decoded w soup) as [[e|d]|]; simpl in H;
          try contradiction; destruct H as [H | [H | []]]; discriminate.
      + apply in_map_iff in H. destruct H as [x [Hx Hin]]. injection Hx as ->. now left.
      + apply in_map_iff in H. destruct H as [x [Hx Hin]]. injection Hx as ->. now right.
      + simpl in H. destruct H as [H | [H | []]]; discriminate.
    - intros [H | H].
      + right. left. now apply in_map.
      + right. right. left. now apply in_map. }
  assert (Hspine : forall h, In (SpineItem h) (spine (packaged w soup (uuid4 w t))) <->
                             In h (chapters_of soup) \/ In h (annotation_chapters soup)).
  { intro h. unfold packaged. simpl. rewrite !in_app_iff. simpl. split.
    - intros [H | [H | [H | H]]]; try discriminate.
      + apply in_map_iff in H. destruct H as [x [Hx Hin]]. injection Hx as ->. now right.
      + apply in_map_iff in H. destruct H as [x [Hx Hin]]. injection Hx as ->. now right.
      + apply in_map_iff in H. destruct H as [x [Hx Hin]]. injection Hx as ->. now left.
    - intros [H | H].
      + right. right. right. now apply in_map.
      + left. now apply in_map. }
  split; [|split; [|split; [|split]]].
  - intros h H. apply Hitems. now apply Hspine.
  - intros i Hi. destruct i as [fn d | img | h | |]; try exact I.
    + apply Hspine. now apply Hitems.
    + unfold packaged. simpl. rewrite !in_app_iff. right. right. now left.
  - rewrite packaged_has_cover. unfold packaged, cover_items. simpl.
    destruct (cover_decoded w soup) as [[e|d]|]; try discriminate.
    intros _. simpl. right. now left.
  - intros h H. apply Hspine in H. destruct H as [H | H].
    + exact (chapter_not_cover_page (visited_sections soup) 0 h H).
    + unfold annotation_chapters in H. destruct (annotation_of soup); simpl in H;
        [|contradiction].
      destruct H as [<- | []]. discriminate.
  - intros l Hl. unfold packaged in Hl. simpl in Hl. apply in_app_or in Hl.
    destruct Hl as [Hl | Hl].
    + apply in_map_iff in Hl. destruct Hl as [h [Hh Hin]].
      exists h. split; [apply Hitems; now right|].
      unfold annotation_chapters in Hin. destruct (annotation_of soup); simpl in Hin;
        [|contradiction].
      destruct Hin as [<- | []]. subst l. split; reflexivity.
    + destruct (link_has_chapter (visited_sections soup) 0 l Hl) as [h [Hin Heq]].
      exists h. split; [apply Hitems; now left | exact Heq].
Qed.

(** X6.  Whatever the document holds, the book that reaches the writer has
    exactly one NCX item and exactly one Nav item, and they are its last two
    items. *)
Theorem ncx_and_nav_added_once_at_the_end :
  forall (w : Env) (soup : node) (t : trace),
    exists (book : EpubBook) (t' : trace) (front : list EpubItem),
      convert_fb2_to_epub_book w soup tt t = (inr book, tt, t') /\
      items book = (front ++ [EpubNcx; EpubNav])%list /\
      List.length (filter is_ncx (items book)) = 1 /\
      List.length (filter is_nav (items book)) = 1.
Proof.
  intros w soup t.
  exists (packaged w soup (uuid4 w t)), (t ++ cover_log w soup)%list.
  exists (cover_items w soup ++ map Html (chapters_of soup)
            ++ map Html (annotation_chapters soup))%list.
  split; [apply convert_fb2_to_epub_book_run|].
  assert (Hn : forall (f : EpubItem -> bool) (l : list EpubHtml),
             (forall h, f (Html h) = false) -> filter f (map Html l) = []).
  { intros f l Hf. apply filter_none. intros x Hx. apply in_map_iff in Hx.
    destruct Hx as [h [<- _]]. apply Hf. }
  assert (Hc : forall f : EpubItem -> bool,
             (forall a b, f (EpubCover a b) = false) ->
             (forall a, f (EpubCoverHtml a) = false) ->
             filter f (cover_items w soup) = []).
  { intros f H1 H2. unfold cover_items.
    destruct (cover_decoded w soup) as [[e|d]|]; simpl; try reflexivity.
    now rewrite H1, H2. }
  unfold packaged. simpl. split; [now rewrite <- !app_assoc|].
  rewrite !filter_app, !Hn, !Hc by reflexivity. split; reflexivity.
Qed.

(** X7.  The chapters do not depend on the machine: two runs on the same
    document, on any two machines and after any two histories, give books
    with the same title, authors, language, spine, table of contents and
    XHTML documents; the cover and the identifier are all that can differ. *)
Theorem chapters_do_not_depend_on_the_machine :
  forall (w1 w2 : Env) (soup : node) (t1 t2 : trace),
    exists (b1 b2 : EpubBook) (t1' t2' : trace),
      convert_fb2_to_epub_book w1 soup tt t1 = (inr b1, tt, t1') /\
      convert_fb2_to_epub_book w2 soup tt t2 = (inr b2, tt, t2') /\
      book_title b1 = book_title b2 /\
      authors b1 = authors b2 /\
      language b1 = language b2 /\
      spine b1 = spine b2 /\
      toc b1 = toc b2 /\
      html_items (items b1) = html_items (items b2).
Proof.
  intros w1 w2 soup t1 t2.
  exists (packaged w1 soup (uuid4 w1 t1)), (packaged w2 soup (uuid4 w2 t2)).
  exists (t1 ++ cover_log w1 soup)%list, (t2 ++ cover_log w2 soup)%list.
  split; [apply convert_fb2_to_epub_book_run|].
  split; [apply convert_fb2_to_epub_book_run|].
  rewrite !packaged_html_items. repeat split.
Qed.

(** X8.  A document without [title-info] is converted with the defaults: the
    title is [Unknown Title], there is no author and no annotation chapter,
    so the spine is the nav marker followed by the chapters and the table of
    contents has one link per chapter. *)
Theorem document_without_title_info :
  forall (w : Env) (soup : node) (t : trace),
    Soup.find "title-info" (Soup.root soup) = None ->
    exists (book : EpubBook) (t' : trace),
      convert_fb2_to_epub_book w soup tt t = (inr book, tt, t') /\
      book_title book = "Unknown Title" /\
      authors book = [] /\
      spine book = SpineNav :: map SpineItem (chapters_of soup) /\
      toc book = links_of soup /\
      html_items (items book) = chapters_of soup.
Proof.
  intros w soup t H.
  exists (packaged w soup (uuid4 w t)), (t ++ cover_log w soup)%list.
  split; [apply convert_fb2_to_epub_book_run|].
  rewrite packaged_html_items.
  unfold packaged, annotation_chapters, annotation_of, extract_metadata.
  rewrite H. simpl. rewrite app_nil_r. repeat split.
Qed.

Lemma document_without_title_info_witness :
  Soup.find "title-info" (Soup.root bare_document) = None /\
  exists (book : EpubBook) (t' : trace),
    convert_fb2_to_epub_book (Examples.quiet_env bare_document) bare_document tt []
      = (inr book, tt, t') /\
    book_title book = "Unknown Title" /\
    map href (toc book) = ["chapter_1.xhtml"].
Proof.
  split; [reflexivity|].
  destruct (document_without_title_info (Examples.quiet_env bare_document)
              bare_document [] eq_refl) as [book [t' [Hrun [Ht [_ [_ [Htoc _]]]]]]].
  exists book, t'. split; [exact Hrun|]. split; [exact Ht|]. rewrite Htoc. reflexivity.
Defined.

(** X9.  No author is dropped and none is reordered: the book gets one
    author per [author] tag below [title-info], in document order; the name
    parts are joined in the order first, middle, last, wherever they stand
    in the tag; an author without any of the three parts is added as the
    empty string. *)
Theorem one_author_per_author_tag :
  forall (w : Env) (soup : node) (t : trace) (ti : element),
    Soup.find "title-info" (Soup.root soup) = Some ti ->
    exists (book : EpubBook) (t' : trace),
      convert_fb2_to_epub_book w soup tt t = (inr book, tt, t') /\
      authors book = map author_name (Soup.find_all ["author"] ti) /\
      List.length (authors book) = List.length (Soup.find_all ["author"] ti) /\
      (forall a : element,
          In a (Soup.find_all ["author"] ti) ->
          (Soup.find "first-name" a = None -> Soup.find "middle-name" a = None ->
           Soup.find "last-name" a = None -> In EmptyString (authors book)) /\
          (forall f l : element,
              Soup.find "first-name" a = Some f -> Soup.find "middle-name" a = None ->
              Soup.find "last-name" a = Some l ->
              In (Soup.get_text f ++ " " ++ Soup.get_text l) (authors book))).
Proof.
  intros w soup t ti H.
  exists (packaged w soup (uuid4 w t)), (t ++ cover_log w soup)%list.
  split; [apply convert_fb2_to_epub_book_run|].
  assert (Ha : authors (packaged w soup (uuid4 w t)) =
               map author_name (Soup.find_all ["author"] ti)).
  { unfold packaged, extract_metadata. rewrite H. reflexivity. }
  rewrite Ha. split; [reflexivity|]. split; [apply length_map|].
  intros a Hin. split.
  - intros H1 H2 H3. apply in_map_iff. exists a. split; [|exact Hin].
    unfold author_name, name_tags. simpl. now rewrite H1, H2, H3.
  - intros f l H1 H2 H3. apply in_map_iff. exists a. split; [|exact Hin].
    unfold author_name, name_tags. simpl. now rewrite H1, H2, H3.
Qed.

Lemma one_author_per_author_tag_witness :
  exists (book : EpubBook) (t' : trace),
    convert_fb2_to_epub_book (Examples.quiet_env anonymous_author_document)
                             anonymous_author_document tt [] = (inr book, tt, t') /\
    authors book = ["Ann Lee"; EmptyString].
Proof.
  destruct (one_author_per_author_tag (Examples.quiet_env anonymous_author_document)
              anonymous_author_document [] _ eq_refl)
    as [book [t' [Hrun [Ha _]]]].
  exists book, t'. split; [exact Hrun|]. rewrite Ha. reflexivity.
Defined.

Lemma hd_error_filter_none {A} (f : A -> bool) (l : list A) :
  (forall x, In x l -> f x = false) -> hd_error (filter f l) = None.
Proof. intro H. now rewrite filter_none. Qed.

(** X10.  Only a JPEG picture becomes the cover.  When no [binary] node of
    the document has the content type [image/jpeg] or [image/jpg] (a PNG
    cover, say), the book has no cover, the decoder is not consulted and
    nothing is logged. *)
Theorem no_jpeg_binary_no_cover :
  forall (w : Env) (soup : node) (t : trace),
    (forall d : element,
        In d (Soup.descendants (Soup.root soup)) ->
        Soup.is_named "binary" d = true ->
        Soup.has_attr_in "content-type" ["image/jpeg"; "image/jpg"] d = false) ->
    exists book : EpubBook,
      convert_fb2_to_epub_book w soup tt t = (inr book, tt, t) /\
      has_cover book = false.
Proof.
  intros w soup t H.
  assert (Hc : cover_decoded w soup = None).
  { unfold cover_decoded, cover_tag, Soup.find_with_attr.
    rewrite hd_error_filter_none; [reflexivity|].
    intros d Hd. destruct (Soup.is_named "binary" d) eqn:Hb; [|reflexivity].
    now rewrite (H d Hd Hb). }
  exists (packaged w soup (uuid4 w t)). split.
  - rewrite convert_fb2_to_epub_book_run. unfold cover_log. rewrite Hc.
    now rewrite app_nil_r.
  - rewrite packaged_has_cover. now rewrite Hc.
Qed.

Lemma no_jpeg_binary_no_cover_witness :
  exists book : EpubBook,
    convert_fb2_to_epub_book (Examples.decoding_env bare_document) bare_document tt []
      = (inr book, tt, []) /\
    has_cover book = false.
Proof.
  apply (no_jpeg_binary_no_cover (Examples.decoding_env bare_document) bare_document []).
  intros d Hd Hb. simpl in Hd.
  repeat (destruct Hd as [<- | Hd]; [first [discriminate Hb | reflexivity]|]).
  destruct Hd.
Defined.

(* ================================================================== *)
(** * Further properties of the drivers *)

Lemma written_app (t1 t2 : trace) :
  written (t1 ++ t2)%list = (written t1 ++ written t2)%list.
Proof. unfold written. apply flat_map_app. Qed.

Lemma written_cover_log (w : Env) (soup : node) : written (cover_log w soup) = [].
Proof. unfold cover_log. destruct (cover_decoded w soup) as [[e|d]|]; reflexivity. Qed.

(** A conversion finishes its package exactly when its writer finishes; it
    can return without that, when the writer met an [OSError]. *)
Lemma convert_fb2_to_epub_written {L} (w : Env) (fb2_content : list byte)
      (output_path : string) (l : L) (t : trace) :
  written (snd (convert_fb2_to_epub w fb2_content output_path l t)) =
  (written t ++
   match BeautifulSoup w fb2_content with
   | inl _ => []
   | inr soup =>
       match write_epub w (t ++ cover_log w soup)%list output_path
                        (packaged w soup (uuid4 w t)) with
       | inr _ => [output_path]
       | inl _ => []
       end
   end)%list.
Proof.
  rewrite convert_fb2_to_epub_run.
  destruct (BeautifulSoup w fb2_content) as [e|soup]; [simpl; now rewrite app_nil_r|].
  cbv zeta. destruct (write_epub w _ output_path _) as [e|u].
  - destruct (is_os_error e); simpl;
      now rewrite written_app, written_cover_log, !app_nil_r.
  - simpl. rewrite !written_app, written_cover_log, app_nil_r. reflexivity.
Qed.

Lemma convert_fb2_to_epub_written_in {L} (w : Env) (fb2_content : list byte)
      (output_path : string) (l : L) (t : trace) (p : string) :
  In p (written (snd (convert_fb2_to_epub w fb2_content output_path l t))) ->
  In p (written t) \/ p = output_path.
Proof.
  rewrite convert_fb2_to_epub_written. intro H. apply in_app_or in H.
  destruct H as [H | H]; [now left|]. right.
  destruct (BeautifulSoup w fb2_content) as [e|soup]; [destruct H|].
  destruct (write_epub w _ output_path _) as [e|u]; [destruct H|].
  destruct H as [H | []]. now symmetry.
Qed.

(** An entry that raises finishes no package; an entry that returns
    finishes at most the package at its own output path. *)
Lemma entry_outcome_written (w : Env) (z : archive) (name : string) (t : trace) (p : string) :
  In p (written (snd (entry_outcome w z name t))) ->
  In p (written t) \/
  (p = entry_output_path name /\ exists u, fst (entry_outcome w z name t) = inr u).
Proof.
  unfold entry_outcome, convert_entry, entry_output_path.
  unfold Run.call, Run.bind, Run.lift, Run.raise, Run.ret, Run.logging, Run.emit,
    Run.get_locals, Run.set_locals.
  destruct (Zip.read z name) as [[e|fb2_content]|]; simpl; try (intro H; now left).
  pose proof (convert_fb2_to_epub_written w fb2_content
                (Py.splitext_root name ++ ".epub") tt t) as Hw.
  pose proof (convert_fb2_to_epub_run w fb2_content
                (Py.splitext_root name ++ ".epub") tt t) as Hrun.
  destruct (convert_fb2_to_epub w fb2_content _ tt t) as [[[e|u] l'] t1]; simpl in *.
  - intro H. left. rewrite Hw in H.
    destruct (BeautifulSoup w fb2_content) as [e0|soup]; [now rewrite app_nil_r in H|].
    cbv zeta in Hrun.
    destruct (write_epub w _ _ _) as [e0|u]; [now rewrite app_nil_r in H|].
    discriminate.
  - intro H. rewrite written_app in H. simpl in H. rewrite app_nil_r, Hw in H.
    apply in_app_or in H. destruct H as [H | H]; [now left|]. right.
    split; [|now exists tt].
    destruct (BeautifulSoup w fb2_content) as [e0|soup]; [destruct H|].
    destruct (write_epub w _ _ _) as [e0|u0]; [destruct H|].
    destruct H as [H | []]. now symmetry.
Qed.

(** The loop over the entries: it gets through the first [k] of them and
    adds their output paths to [epub_files]; the packages it finishes are
    among these. *)
Lemma for_each_entries_prefix (w : Env) (z : archive) (names : list string) :
  forall (epub_files : list string) (t : trace),
    exists k : nat,
      k <= List.length names /\
      snd (fst (Run.for_each names (convert_entry w z) epub_files t)) =
        (epub_files ++ map entry_output_path (firstn k names))%list /\
      (forall p : string,
          In p (written (snd (Run.for_each names (convert_entry w z) epub_files t))) ->
          In p (written t) \/ In p (map entry_output_path (firstn k names))) /\
      (forall u, fst (fst (Run.for_each names (convert_entry w z) epub_files t)) = inr u ->
                 k = List.length names).
Proof.
  induction names as [|n ns IH]; intros epub_files t.
  - exists 0. simpl. rewrite !app_nil_r. repeat split; [lia | now left].
  - simpl Run.for_each. unfold Run.bind. rewrite convert_entry_run.
    pose proof (entry_outcome_written w z n t) as Hw.
    destruct (entry_outcome w z n t) as [[e|u] t1]; simpl in Hw.
    + exists 0. simpl. rewrite !app_nil_r. repeat split; [lia | | discriminate].
      intros p Hp. destruct (Hw p Hp) as [H | [_ [u Hu]]]; [now left | discriminate].
    + destruct (IH (epub_files ++ [entry_output_path n])%list t1) as [k [Hk [Hf [Hwr Hall]]]].
      exists (S k). simpl. split; [lia|]. split; [|split].
      * rewrite Hf, <- app_assoc. reflexivity.
      * intros p Hp. destruct (Hwr p Hp) as [H | H]; [|now right; right].
        destruct (Hw p H) as [H' | [H' _]]; [now left | right; left; now symmetry].
      * intros u0 Hu. f_equal. exact (Hall u0 Hu).
Qed.

Lemma convert_archive_prefix :
  forall (w : Env) (zip_path : string) (t : trace),
    exists (epub_files : list string) (t' : trace),
      convert_archive w zip_path tt t = (inr epub_files, tt, t') /\
      (forall z : archive,
          ZipFile w t zip_path = inr z ->
          exists k : nat,
            epub_files = map entry_output_path (firstn k (fb2_entries z))) /\
      (forall p : string, In p (written t') -> In p (written t) \/ In p epub_files).
Proof.
  intros w zip_path t. rewrite convert_archive_run.
  destruct (os_path_exists w t zip_path).
  - destruct (ZipFile w t zip_path) as [e|z].
    + eexists. eexists. split; [reflexivity|]. split.
      * intros z Hz. discriminate.
      * intros p Hp. rewrite written_app in Hp. simpl in Hp. rewrite app_nil_r in Hp.
        now left.
    + destruct (is_nil (fb2_entries z)).
      * eexists. eexists. split; [reflexivity|]. split.
        -- intros z0 _. exists 0. reflexivity.
        -- intros p Hp. rewrite written_app in Hp. simpl in Hp. rewrite app_nil_r in Hp.
           now left.
      * destruct (for_each_entries_prefix w z (fb2_entries z) [] t)
          as [k [_ [Hf [Hwr _]]]].
        destruct (Run.for_each (fb2_entries z) (convert_entry w z) [] t)
          as [[[e|u] files] t1]; simpl in Hf, Hwr; subst files.
        -- eexists. eexists. split; [reflexivity|]. split.
           ++ intros z0 Hz. injection Hz as <-. now exists k.
           ++ intros p Hp. rewrite written_app in Hp. simpl in Hp.
              rewrite app_nil_r in Hp. exact (Hwr p Hp).
        -- eexists. eexists. split; [reflexivity|]. split.
           ++ intros z0 Hz. injection Hz as <-. now exists k.
           ++ exact Hwr.
  - eexists. eexists. split; [reflexivity|]. split.
    + intros z _. exists 0. reflexivity.
    + intros p Hp. rewrite written_app in Hp. simpl in Hp. rewrite app_nil_r in Hp.
      now left.
Qed.

(** X11.  Whatever happens during a run, [convert_archive] returns a prefix
    of the output paths of the archive's [.fb2] entries, in listing order,
    and every package that the writer finished during the run has its path
    in the returned list.  The converse does not hold: a returned path need
    not be a finished package (see [convert_archive_missing_folder]). *)
Theorem convert_archive_returns_prefix_of_entries :
  forall (w : Env) (zip_path : string) (t : trace),
    exists (epub_files : list string) (t' : trace),
      convert_archive w zip_path tt t = (inr epub_files, tt, t') /\
      (forall z : archive,
          ZipFile w t zip_path = inr z ->
          exists k : nat,
            epub_files = map entry_output_path (firstn k (fb2_entries z))) /\
      (forall p : string, In p (written t') -> In p (written t) \/ In p epub_files).
Proof. exact convert_archive_prefix. Qed.

(** X12.  When the input of [convert_file] is missing or cannot be read, the
    caller gets an [UnboundLocalError] for [output_path], not the
    [FileNotFoundError] or the exception of the read, which is only logged;
    nothing is written. *)
Theorem convert_file_without_input_raises_unbound_local :
  forall (w : Env) (fb2_path : string) (t : trace),
    (os_path_exists w t fb2_path = false ->
     convert_file w fb2_path tt t =
     (inl unbound_output_path, tt,
      (t ++ [Logged ERROR "Failed to convert FB2 to EPUB: FB2 file does not exist"])%list)) /\
    (forall e : exn,
        os_path_exists w t fb2_path = true ->
        open_read w t fb2_path = inl e ->
        convert_file w fb2_path tt t =
        (inl unbound_output_path, tt,
         (t ++ [Logged ERROR ("Failed to convert FB2 to EPUB: " ++ str_exn e)])%list)) /\
    ((os_path_exists w t fb2_path = false \/ exists e, open_read w t fb2_path = inl e) ->
     written (snd (convert_file w fb2_path tt t)) = written t).
Proof.
  intros w fb2_path t. rewrite convert_file_run. split; [|split].
  - intro H. now rewrite H.
  - intros e H1 H2. now rewrite H1, H2.
  - intros [H | [e H]].
    + rewrite H. simpl. rewrite written_app. simpl. now rewrite app_nil_r.
    + rewrite H. destruct (os_path_exists w t fb2_path); simpl;
        rewrite written_app; simpl; now rewrite app_nil_r.
Qed.

(** X13.  When the input exists and is read, [convert_file] returns the
    output path in every case, and the package at that path is finished
    exactly when the writer itself finished it.  After an exception of the
    parser or of the writer, and after an [OSError] that [epub.write_epub]
    swallowed (in which case [convert_file] logs a success), the caller
    holds the path of a package that this call did not finish. *)
Theorem convert_file_path_finished_iff_writer_finished :
  forall (w : Env) (fb2_path : string) (t : trace) (fb2_content : list byte),
    os_path_exists w t fb2_path = true ->
    open_read w t fb2_path = inr fb2_content ->
    let output_path := file_output_path fb2_path in
    exists t' : trace,
      convert_file w fb2_path tt t = (inr output_path, tt, t') /\
      written t' =
      (written t ++
       match BeautifulSoup w fb2_content with
       | inl _ => []
       | inr soup =>
           match write_epub w (t ++ cover_log w soup)%list output_path
                            (packaged w soup (uuid4 w t)) with
           | inr _ => [output_path]
           | inl _ => []
           end
       end)%list.
Proof.
  intros w fb2_path t fb2_content Hex Hrd output_path.
  rewrite convert_file_run, Hex, Hrd. cbv zeta. fold output_path.
  pose proof (convert_fb2_to_epub_written w fb2_content output_path tt t) as H.
  destruct (convert_fb2_to_epub w fb2_content output_path tt t) as [[[e|u] l'] t1];
    eexists; (split; [reflexivity|]); simpl in H;
    rewrite written_app; simpl; rewrite app_nil_r; exact H.
Qed.

Lemma convert_file_path_finished_iff_writer_finished_witness :
  (exists t' : trace,
      convert_file Examples.full_disk_env "downloads/book.fb2" tt [] = (inr "book.epub", tt, t') /\
      written t' = []) /\
  (exists t' : trace,
      convert_file Examples.no_parser_env "downloads/book.fb2" tt [] = (inr "book.epub", tt, t') /\
      written t' = []) /\
  (exists t' : trace,
      convert_file (Examples.quiet_env Examples.intro_hello) "downloads/book.fb2" tt []
        = (inr "book.epub", tt, t') /\
      written t' = ["book.epub"]).
Proof.
  split; [|split].
  - exact (convert_file_path_finished_iff_writer_finished
             Examples.full_disk_env "downloads/book.fb2" [] [] eq_refl eq_refl).
  - exact (convert_file_path_finished_iff_writer_finished
             Examples.no_parser_env "downloads/book.fb2" [] [] eq_refl eq_refl).
  - exact (convert_file_path_finished_iff_writer_finished
             (Examples.quiet_env Examples.intro_hello) "downloads/book.fb2" [] []
             eq_refl eq_refl).
Defined.

(** ** Output paths *)

Lemma substring_all (s : string) : substring 0 (String.length s) s = s.
Proof. induction s as [|c s IH]; simpl; [reflexivity | now rewrite IH]. Qed.

Lemma substring_0_0 (s : string) : substring 0 0 s = EmptyString.
Proof. destruct s; reflexivity. Qed.

Lemma substring_app_l (s1 s2 : string) :
  forall n m : nat,
    n + m <= String.length s1 -> substring n m (s1 ++ s2) = substring n m s1.
Proof.
  induction s1 as [|c s1 IH]; intros n m H; simpl in *.
  - assert (n = 0) by lia. assert (m = 0) by lia. subst. apply substring_0_0.
  - destruct n as [|n].
    + destruct m as [|m]; [reflexivity|]. f_equal. apply IH. lia.
    + apply IH. lia.
Qed.

Lemma substring_prefix_app (s1 s2 : string) :
  substring 0 (String.length s1) (s1 ++ s2) = s1.
Proof. rewrite substring_app_l by lia. apply substring_all. Qed.

Lemma substring_suffix_app (s1 s2 : string) :
  substring (String.length s1) (String.length s2) (s1 ++ s2) = s2.
Proof. induction s1 as [|c s1 IH]; simpl; [apply substring_all | exact IH]. Qed.

Lemma occurs_app (c : ascii) (a b : string) :
  occurs c (a ++ b) = occurs c a || occurs c b.
Proof.
  unfold occurs. induction a as [|x a IH]; simpl; [reflexivity|].
  now rewrite IH, orb_assoc.
Qed.

Lemma occurs_substring_prefix (c : ascii) (s : string) :
  forall n : nat, occurs c s = false -> occurs c (substring 0 n s) = false.
Proof.
  unfold occurs. induction s as [|x s IH]; intros n H; simpl in *.
  - destruct n; reflexivity.
  - apply orb_false_elim in H. destruct H as [Hx Hs].
    destruct n as [|n]; simpl; [reflexivity|]. rewrite Hx. now apply IH.
Qed.

(** [rfind] returns -1 when the character does not occur, and otherwise the
    index of an occurrence after which it does not occur again. *)
Lemma rfind_from_spec (c : ascii) (s : string) :
  forall i last : Z,
    (Py.rfind_from c s i last = last /\ occurs c s = false) \/
    (exists k : nat,
        Py.rfind_from c s i last = (i + Z.of_nat k)%Z /\
        k < String.length s /\
        occurs c (substring (S k) (String.length s - S k) s) = false).
Proof.
  induction s as [|d s IH]; intros i last; simpl.
  - left. split; reflexivity.
  - destruct (IH (i + 1)%Z (if Ascii.eqb c d then i else last)) as [[Hr Ho] | [k [Hr [Hk Ho]]]].
    + destruct (Ascii.eqb c d) eqn:Hcd.
      * right. exists 0. rewrite Hr. split; [lia|]. split; [lia|].
        rewrite Nat.sub_0_r, substring_all. exact Ho.
      * left. rewrite Hr. split; [reflexivity|].
        unfold occurs in *. simpl. now rewrite Hcd.
    + right. exists (S k). rewrite Hr. split; [lia|]. split; [lia|]. exact Ho.
Qed.

Lemma rfind_spec (c : ascii) (s : string) :
  (Py.rfind c s = (-1)%Z /\ occurs c s = false) \/
  (exists k : nat,
      Py.rfind c s = Z.of_nat k /\ k < String.length s /\
      occurs c (substring (S k) (String.length s - S k) s) = false).
Proof.
  unfold Py.rfind. destruct (rfind_from_spec c s 0 (-1)) as [H | [k [Hr H]]].
  - now left.
  - right. exists k. rewrite Hr. split; [lia | exact H].
Qed.

Lemma basename_no_slash (p : string) : occurs "/"%char (Py.basename p) = false.
Proof.
  unfold Py.basename, Py.slice_from.
  destruct (rfind_spec "/"%char p) as [[Hr Ho] | [k [Hr [Hk Ho]]]]; rewrite Hr.
  - simpl Z.to_nat. rewrite Nat.sub_0_r, substring_all. exact Ho.
  - replace (Z.to_nat (Z.of_nat k + 1)) with (S k) by lia. exact Ho.
Qed.

Lemma splitext_root_no_new_char (c : ascii) (p : string) :
  occurs c p = false -> occurs c (Py.splitext_root p) = false.
Proof.
  intro H. unfold Py.splitext_root, Py.slice_to.
  destruct (_ <? _)%Z; [|exact H].
  destruct (Py.has_non_dot _ _ _); [|exact H].
  now apply occurs_substring_prefix.
Qed.

(** X14.  The path [convert_file] returns has no directory part: whatever
    directory the input lies in, the package is written into the working
    directory of the process. *)
Theorem convert_file_output_has_no_directory :
  forall fb2_path : string, occurs "/"%char (file_output_path fb2_path) = false.
Proof.
  intro p. unfold file_output_path. rewrite occurs_app.
  rewrite (splitext_root_no_new_char "/"%char _ (basename_no_slash p)). reflexivity.
Qed.

Lemma rfind_from_app (c : ascii) (s1 s2 : string) :
  forall i last : Z,
    Py.rfind_from c (s1 ++ s2) i last =
    Py.rfind_from c s2 (i + Z.of_nat (String.length s1))%Z (Py.rfind_from c s1 i last).
Proof.
  induction s1 as [|d s1 IH]; intros i last; simpl String.length; simpl append.
  - simpl. now rewrite Z.add_0_r.
  - simpl Py.rfind_from. rewrite IH. f_equal. lia.
Qed.

Lemma rfind_bound (c : ascii) (s : string) :
  (-1 <= Py.rfind c s < Z.of_nat (String.length s))%Z.
Proof.
  destruct (rfind_spec c s) as [[Hr _] | [k [Hr [Hk _]]]]; rewrite Hr; lia.
Qed.

Lemma rfind_dot_fb2 (stem : string) :
  Py.rfind "."%char (stem ++ ".fb2") = Z.of_nat (String.length stem).
Proof. unfold Py.rfind. rewrite rfind_from_app. reflexivity. Qed.

Lemma rfind_slash_fb2 (stem : string) :
  Py.rfind "/"%char (stem ++ ".fb2") = Py.rfind "/"%char stem.
Proof. unfold Py.rfind. rewrite rfind_from_app. reflexivity. Qed.

Lemma has_non_dot_fb2 (stem : string) :
  Py.has_non_dot (stem ++ ".fb2") (Py.rfind "/"%char stem + 1)
                 (Z.of_nat (String.length stem)) = has_stem_char stem.
Proof.
  unfold Py.has_non_dot, has_stem_char, Py.basename, Py.slice_from.
  pose proof (rfind_bound "/"%char stem) as Hb.
  rewrite substring_app_l by lia.
  replace (Z.to_nat (Z.of_nat (String.length stem) - (Py.rfind "/"%char stem + 1)))
    with (String.length stem - Z.to_nat (Py.rfind "/"%char stem + 1)) by lia.
  reflexivity.
Qed.

Lemma splitext_root_fb2 (stem : string) :
  Py.splitext_root (stem ++ ".fb2") =
  if has_stem_char stem then stem else stem ++ ".fb2".
Proof.
  unfold Py.splitext_root. rewrite rfind_dot_fb2, rfind_slash_fb2, has_non_dot_fb2.
  pose proof (rfind_bound "/"%char stem) as Hb.
  destruct (Z.ltb_spec (Py.rfind "/"%char stem) (Z.of_nat (String.length stem))); [|lia].
  destruct (has_stem_char stem); [|reflexivity].
  unfold Py.slice_to. rewrite Nat2Z.id. apply substring_prefix_app.
Qed.

(** X15.  A name [stem.fb2] is an eligible archive entry, and its output
    path is [stem.epub], folder included, when the last component of [stem]
    has a character other than a dot.  When it has none (the entry is named
    [.fb2], or [..fb2], in some folder) the name counts as having no
    extension and the output path is the whole name followed by [.epub]. *)
Theorem fb2_entry_output_path :
  forall stem : string,
    Py.endswith (stem ++ ".fb2") ".fb2" = true /\
    (has_stem_char stem = true -> entry_output_path (stem ++ ".fb2") = stem ++ ".epub") /\
    (has_stem_char stem = false ->
     entry_output_path (stem ++ ".fb2") = stem ++ ".fb2" ++ ".epub").
Proof.
  intro stem. split; [|split].
  - unfold Py.endswith. rewrite append_length. simpl String.length.
    replace (String.length stem + 4 - 4) with (String.length stem) by lia.
    pose proof (substring_suffix_app stem ".fb2") as Hs. simpl String.length in Hs.
    rewrite Hs.
    apply andb_true_intro. split; [apply Nat.leb_le; lia | reflexivity].
  - intro H. unfold entry_output_path. now rewrite splitext_root_fb2, H.
  - intro H. unfold entry_output_path. rewrite splitext_root_fb2, H.
    apply append_assoc.
Qed.

Lemma fb2_entry_output_path_witness :
  entry_output_path ("stories/first" ++ ".fb2") = "stories/first.epub" /\
  entry_output_path ("stories/" ++ ".fb2") = "stories/.fb2.epub".
Proof.
  split.
  - exact (proj1 (proj2 (fb2_entry_output_path "stories/first")) eq_refl).
  - exact (proj2 (proj2 (fb2_entry_output_path "stories/")) eq_refl).
Defined.

(* ================================================================== *)
(** * The caller: process_file *)

(** X16.  [process_file] chooses the driver by the name of the upload.  For
    a name that ends in [.zip] it never raises and returns a prefix, in
    listing order, of the output paths of the archive's [.fb2] entries.  For
    any other name it returns a list of exactly one path, the output path of
    the file, whenever the file exists and is read, whether or not the
    conversion succeeded; and it raises the [UnboundLocalError] of
    [convert_file] when the file is missing or unreadable. *)
Theorem process_file_outcomes :
  forall (w : Env) (file_path file_name : string) (t : trace),
    (Py.endswith file_name ".zip" = true ->
     exists (files : list string) (t' : trace),
       process_file w file_path file_name tt t = (inr files, tt, t') /\
       (forall z : archive,
           ZipFile w t file_path = inr z ->
           exists k : nat, files = map entry_output_path (firstn k (fb2_entries z)))) /\
    (Py.endswith file_name ".zip" = false ->
     (forall fb2_content : list byte,
         os_path_exists w t file_path = true ->
         open_read w t file_path = inr fb2_content ->
         exists t' : trace,
           process_file w file_path file_name tt t =
           (inr [file_output_path file_path], tt, t')) /\
     ((os_path_exists w t file_path = false \/ exists e, open_read w t file_path = inl e) ->
      exists t' : trace,
        process_file w file_path file_name tt t = (inl unbound_output_path, tt, t')) /\
     (forall (files : list string) (t' : trace),
         process_file w file_path file_name tt t = (inr files, tt, t') ->
         List.length files = 1)).
Proof.
  intros w file_path file_name t. unfold process_file. split; intro Hz; rewrite Hz.
  - destruct (convert_archive_prefix w file_path t)
      as [files [t' [Hrun [Hp _]]]].
    exists files, t'. split; assumption.
  - unfold Run.bind, Run.ret. rewrite convert_file_run. split; [|split].
    + intros fb2_content Hex Hrd. rewrite Hex, Hrd. cbv zeta.
      destruct (convert_fb2_to_epub w fb2_content _ tt t) as [[[e|u] l'] t1];
        eexists; reflexivity.
    + intros [H | [e H]].
      * rewrite H. eexists. reflexivity.
      * rewrite H. destruct (os_path_exists w t file_path); eexists; reflexivity.
    + intros files t'.
      destruct (os_path_exists w t file_path); [|discriminate].
      destruct (open_read w t file_path) as [e|fb2_content]; [discriminate|]. cbv zeta.
      destruct (convert_fb2_to_epub w fb2_content _ tt t) as [[[e|u] l'] t1];
        intro H; injection H as <- _; reflexivity.
Qed.

Lemma process_file_outcomes_witness :
  (exists t' : trace,
      process_file Examples.no_parser_env "downloads/book.fb2" "book.fb2" tt [] =
      (inr ["book.epub"], tt, t')) /\
  exists (files : list string) (t' : trace) (k : nat),
    process_file Examples.damaged_archive_env "books.zip" "books.zip" tt [] =
      (inr files, tt, t') /\
    files = map entry_output_path (firstn k (fb2_entries Examples.damaged_archive)).
Proof.
  split.
  - destruct (proj1 (proj2 (process_file_outcomes Examples.no_parser_env
                              "downloads/book.fb2" "book.fb2" []) eq_refl)
                    [] eq_refl eq_refl) as [t' H].
    exists t'. rewrite H. reflexivity.
  - destruct (proj1 (process_file_outcomes Examples.damaged_archive_env
                       "books.zip" "books.zip" []) eq_refl) as [files [t' [Hrun Hp]]].
    destruct (Hp Examples.damaged_archive eq_refl) as [k Hk].
    exists files, t', k. split; assumption.
Defined.

(* ================================================================== *)
(** * Localized messages *)




(** X17.  When the settings are a dictionary whose every preference names a
    loaded language, and English is loaded, [get_localization] raises
    nothing: a chat with a preference gets the text of its language, a chat
    without one gets the English text, and a key that the table lacks gives
    the empty string. *)
Theorem get_localization_never_raises_on_loaded_preferences :
  forall (localizations d en : dict) (chat_id : Z) (key : string),
    preferences_loaded localizations d ->
    dict_get localizations "en" = Some (JObject en) ->
    (exists table : dict,
        get_localization localizations (JObject d) chat_id key = inr (table_text table key)) /\
    (dict_get d (str_of_int chat_id) = None ->
     get_localization localizations (JObject d) chat_id key = inr (table_text en key)) /\
    (forall (code : string) (table : dict),
        dict_get d (str_of_int chat_id) = Some (JString code) ->
        dict_get localizations code = Some (JObject table) ->
        get_localization localizations (JObject d) chat_id key = inr (table_text table key)).
Proof.
  intros localizations d en chat_id key Hpref Hen.
  unfold get_localization, json_get, table_text.
  destruct (dict_get d (str_of_int chat_id)) as [v|] eqn:Hget.
  - destruct (Hpref _ _ Hget) as [code [table [-> Htable]]].
    simpl. rewrite Htable. split; [|split].
    + exists table. reflexivity.
    + discriminate.
    + intros code' table' Heq Ht'. injection Heq as Heq. subst code'.
      rewrite Htable in Ht'. injection Ht' as Ht'. subst table'. reflexivity.
  - simpl. rewrite Hen. split; [|split].
    + exists en. reflexivity.
    + reflexivity.
    + discriminate.
Qed.

Lemma get_localization_never_raises_on_loaded_preferences_witness :
  get_localization two_languages (JObject one_preference) 42 "greeting" = inr (JString "Privet") /\
  get_localization two_languages (JObject one_preference) 7 "greeting" = inr (JString "Hello") /\
  get_localization two_languages (JObject one_preference) 7 "farewell" = inr (JString EmptyString).
Proof.
  assert (Hp : preferences_loaded two_languages one_preference).
  { intros k v H. unfold one_preference, dict_get in H.
    destruct (String.eqb "42" k); [|discriminate]. injection H as <-.
    exists "ru", [("greeting", JString "Privet")]. split; reflexivity. }
  split; [|split].
  - exact (proj2 (proj2 (get_localization_never_raises_on_loaded_preferences
                           two_languages one_preference _ 42 "greeting" Hp eq_refl))
                 "ru" _ eq_refl eq_refl).
  - exact (proj1 (proj2 (get_localization_never_raises_on_loaded_preferences
                           two_languages one_preference _ 7 "greeting" Hp eq_refl))
                 eq_refl).
  - exact (proj1 (proj2 (get_localization_never_raises_on_loaded_preferences
                           two_languages one_preference _ 7 "farewell" Hp eq_refl))
                 eq_refl).
Defined.



(** What happens when a stored preference names a language that is not
    loaded: the lookup of the table raises [KeyError]. *)
Lemma get_localization_unknown_language (localizations d : dict) (chat_id : Z)
      (code key : string) :
  dict_get d (str_of_int chat_id) = Some (JString code) ->
  dict_get localizations code = None ->
  get_localization localizations (JObject d) chat_id key = inl KeyError.
Proof.
  intros H1 H2. unfold get_localization, json_get. rewrite H1. simpl. now rewrite H2.
Qed.

(* ================================================================== *)
(** * Flattened text *)

(** The strings of an element stand together among the strings of every
    element above it. *)
Lemma strings_infix (n : node) :
  forall (anc : list string) (d : element),
    In d (Soup.descendants_in anc n) ->
    exists pre post : list string,
      Soup.strings n = (pre ++ Soup.strings (here d) ++ post)%list.
Proof.
  induction n using node_rect' with
    (Q := fun cs => forall (anc : list string) (d : element),
              In d (descendants_of_list anc cs) ->
              exists pre post : list string,
                flat_map Soup.strings cs = (pre ++ Soup.strings (here d) ++ post)%list).
  - intros anc d [].
  - intros anc d [].
  - intros anc d Hd. exact (IHn (nm :: anc) d Hd).
  - intros anc d [].
  - intros anc d Hd. rewrite descendants_of_list_cons in Hd. simpl flat_map.
    destruct Hd as [Hd | Hd].
    + subst d. exists [], (flat_map Soup.strings cs). reflexivity.
    + apply in_app_or in Hd. destruct Hd as [Hd | Hd].
      * destruct (IHn anc d Hd) as [pre [post Heq]].
        exists pre, (post ++ flat_map Soup.strings cs)%list.
        rewrite Heq, <- !app_assoc. reflexivity.
      * destruct (IHn0 anc d Hd) as [pre [post Heq]].
        exists (Soup.strings n ++ pre)%list, post.
        rewrite Heq, <- !app_assoc. reflexivity.
Qed.

Lemma get_text_contains_descendant (e d : element) :
  In d (Soup.descendants e) ->
  exists x y : string, Soup.get_text e = x ++ Soup.get_text d ++ y.
Proof.
  intro H. destruct (strings_infix (here e) (parents e) d H) as [pre [post Heq]].
  unfold Soup.get_text. rewrite Heq, !join_app.
  exists (Py.join pre), (Py.join post). reflexivity.
Qed.

(** X19.  A paragraph with an [emphasis] tag anywhere below it is set in
    italics as a whole, and its text is flattened: the text of every element
    below the paragraph, emphasised or not, stands inside the one [<i>]
    element, without the markup that surrounded it. *)
Theorem emphasised_paragraph_is_italic_as_a_whole :
  forall p em d : element,
    Soup.is_named "p" p = true ->
    Soup.find_parent "title" p = false ->
    Soup.find "emphasis" p = Some em ->
    In d (Soup.descendants p) ->
    section_element_html p = p_open ++ ("<i>" ++ Soup.get_text p ++ "</i>") ++ "</p>" /\
    exists x y : string, Soup.get_text p = x ++ Soup.get_text d ++ y.
Proof.
  intros p em d Hp Ht Hem Hd. split.
  - unfold section_element_html. rewrite Hp, Ht. simpl.
    unfold process_paragraph. now rewrite Hem.
  - now apply get_text_contains_descendant.
Qed.

Lemma emphasised_paragraph_is_italic_as_a_whole_witness :
  section_element_html emphasised_paragraph =
  p_open ++ "<i>It was very cold.</i>" ++ "</p>".
Proof.
  rewrite (proj1 (emphasised_paragraph_is_italic_as_a_whole
                    emphasised_paragraph
                    (Element ["p"; "section"; "body"; "FictionBook"; "[document]"]
                             (Tag "emphasis" [] [NavigableString "very"]))
                    (Element ["p"; "section"; "body"; "FictionBook"; "[document]"]
                             (Tag "emphasis" [] [NavigableString "very"]))
                    eq_refl eq_refl eq_refl (or_intror (or_introl eq_refl)))).
  reflexivity.
Defined.
